(** * Order composition and pricing in the clothing storefront

    A shallow embedding of [main2.py]: the tables the order handlers touch,
    the SQLAlchemy session they go through, the three customer handlers
    ([customer_add_item], [view_order], [delete_order_item]), [sign_up], and
    the top-level statements of the module itself; then the owner's handlers
    ([owner_add_item], [edit_item], [delete_item]), [edit_billing], [login],
    [logout] and [home].

    Python exceptions are values of [exn]; a handler is a function from the
    request environment and the session to a result and a new session.  The
    session keeps the committed database apart from the pending one, since an
    exception that escapes a handler discards whatever was not committed. *)

From Stdlib Require Import ZArith List String Bool PrimFloat Lia Sorted Permutation.
Import ListNotations.

Set Warnings "-inexact-float".
Open Scope string_scope.
Open Scope list_scope.
Open Scope Z_scope.

(** ** Python values and exceptions *)

(** The values that flow through keyword and positional arguments of the
    query calls in the handlers. *)
Inductive pyval :=
| VNone
| VInt (z : Z)
| VFloat (f : float)
| VStr (s : string)
| VRel (target : string).   (* the far side of a [relationship] *)

Inductive exn :=
| NameError (name : string)
| AttributeError (type_name attr : string)
| TypeError (callee keyword : string)
| IntegrityError (table : string)
| UnmappedInstanceError (type_name : string)
| HTTPException (code : Z).

Inductive result (A : Type) :=
| Ok (a : A)
| Raise (e : exn).
Arguments Ok {A} a.
Arguments Raise {A} e.

(** An argument at a call site: [f(v)] or [f(k=v)]. *)
Inductive arg :=
| Pos (v : pyval)
| Kw (k : string) (v : pyval).

(** ** Tables (lines 72-288) *)

Record PlacedIn := mkPlacedIn {
  PlacedIn_item_id : Z;
  PlacedIn_order_num : Z
}.

Record User := mkUser {
  User_id : Z;
  User_username : string;
  User_email_address : string;
  User_password : string;
  User_phone_number : option string;
  User_type : string;
  User_shipping_provider_id : option Z
}.

Record Item := mkItem {
  Item_id : Z;
  Item_img_url : string;
  Item_name : string;
  Item_price : float;
  Item_sex : option string;
  Item_size : option string;
  Item_brand : option string;
  Item_type : option string;
  Item_weight : option float;
  Item_color : option string;
  Item_user_id : option Z;
  Item_inventory_id : option Z
}.

Record Billing := mkBilling {
  Billing_card_number : string;
  Billing_expiry_date : option string;
  Billing_cvv : option string;
  Billing_user_id : option Z
}.

Record Order := mkOrder {
  Order_order_num : Z;
  Order_order_date : option string;
  Order_total_price : option float;
  Order_user_id : option Z;
  Order_shipping_provider_id : option Z
}.

Record Database := mkDatabase {
  users : list User;
  billings : list Billing;
  items : list Item;
  orders : list Order;
  placed_in : list PlacedIn
}.

Definition empty_db : Database := mkDatabase [] [] [] [] [].

(** ** The request and the session *)

Record SignUpData := mkSignUpData {
  su_username : string;
  su_email : string;
  su_password_hash : string;   (* what [generate_password_hash] returned *)
  su_phone_number : option string;
  su_type : string;
  su_card_number : string;
  su_expiry_date : option string;
  su_cvv : option string
}.

(** What a handler reads but does not own: the names bound in the module
    namespace, the user Flask-Login resolved, and the submitted form. *)
Record Env := mkEnv {
  globals : list string;
  current_user : option User;
  is_post : bool;
  form_valid : bool;
  form_name : string;          (* [ItemForm.name.data] of the submission *)
  signup_data : SignUpData;
  now : string                 (* [datetime.now().strftime(...)] *)
}.

(** [form.validate_on_submit()]: a submitting method and a valid form. *)
Definition validate_on_submit (e : Env) : bool := is_post e && form_valid e.

Record World := mkWorld {
  stored : Database;           (* committed rows *)
  session : Database;          (* what queries of this request see *)
  flashes : list string
}.

Record TemplateContext := mkContext {
  ctx_items : list Item;
  ctx_price : float
}.

Inductive response :=
| Render (template : string) (ctx : TemplateContext)
| Redirect (endpoint : string).

Definition no_context : TemplateContext := mkContext [] 0%float.

(** ** The handler monad *)

Definition M (A : Type) : Type := Env -> World -> result A * World.

Definition ret {A} (a : A) : M A := fun _ w => (Ok a, w).

Definition bind {A B} (m : M A) (k : A -> M B) : M B :=
  fun e w =>
    match m e w with
    | (Ok a, w') => k a e w'
    | (Raise x, w') => (Raise x, w')
    end.

Definition raise {A} (x : exn) : M A := fun _ w => (Raise x, w).

Definition lift {A} (r : result A) : M A := fun _ w => (r, w).

Definition ask : M Env := fun e w => (Ok e, w).

Definition get_session : M Database := fun _ w => (Ok (session w), w).

Definition put_session (d : Database) : M unit :=
  fun _ w => (Ok tt, mkWorld (stored w) d (flashes w)).

Declare Scope handler_scope.
Delimit Scope handler_scope with handler.
Notation "x <- c ;; k" := (bind c (fun x => k))
  (at level 100, c at next level, right associativity) : handler_scope.
Notation "c ;;; k" := (bind c (fun _ => k))
  (at level 100, right associativity) : handler_scope.
Open Scope handler_scope.

(** [for x in xs: acc = body(acc, x)], stopping at the first exception. *)
Fixpoint for_each {A S} (xs : list A) (body : S -> A -> M S) (acc : S) : M S :=
  match xs with
  | [] => ret acc
  | x :: rest => acc' <- body acc x ;; for_each rest body acc'
  end.

(** A request starts with a session that mirrors the committed rows; when it
    ends, normally or by an exception, only the committed rows remain. *)
Definition run {A} (h : M A) (e : Env) (d : Database) : result A * Database :=
  let '(r, w) := h e (mkWorld d d []) in (r, stored w).

(** ** Python name and attribute lookup *)

(** Reading a module-level name inside a function body: the name is looked
    up in the module namespace when the line runs. *)
Definition global_name (n : string) : M unit :=
  fun e w =>
    if existsb (String.eqb n) (globals e) then (Ok tt, w)
    else (Raise (NameError n), w).

(** [obj.attr] where [obj] is a row or [None]. *)
Definition attr_of {A B} (attr : string) (proj : A -> B) (obj : option A) : M B :=
  match obj with
  | Some x => ret (proj x)
  | None => raise (AttributeError "NoneType" attr)
  end.

Definition opt_str (o : option string) : pyval :=
  match o with Some s => VStr s | None => VNone end.
Definition opt_int (o : option Z) : pyval :=
  match o with Some z => VInt z | None => VNone end.
Definition opt_float (o : option float) : pyval :=
  match o with Some f => VFloat f | None => VNone end.

(** [getattr(item, attr)] for a row of [Item] (lines 203-223): the mapped
    columns and the three relationships, nothing else. *)
Definition Item_getattr (it : Item) (attr : string) : result pyval :=
  if String.eqb attr "id" then Ok (VInt (Item_id it))
  else if String.eqb attr "img_url" then Ok (VStr (Item_img_url it))
  else if String.eqb attr "name" then Ok (VStr (Item_name it))
  else if String.eqb attr "price" then Ok (VFloat (Item_price it))
  else if String.eqb attr "sex" then Ok (opt_str (Item_sex it))
  else if String.eqb attr "size" then Ok (opt_str (Item_size it))
  else if String.eqb attr "brand" then Ok (opt_str (Item_brand it))
  else if String.eqb attr "type" then Ok (opt_str (Item_type it))
  else if String.eqb attr "weight" then Ok (opt_float (Item_weight it))
  else if String.eqb attr "color" then Ok (opt_str (Item_color it))
  else if String.eqb attr "user_id" then Ok (opt_int (Item_user_id it))
  else if String.eqb attr "inventory_id" then Ok (opt_int (Item_inventory_id it))
  else if String.eqb attr "user" then Ok (VRel "User")
  else if String.eqb attr "inventory" then Ok (VRel "Inventory")
  else if String.eqb attr "order" then Ok (VRel "Order")
  else Raise (AttributeError "Item" attr).

(** Reading several attributes of a possibly missing row, left to right. *)
Fixpoint read_attrs (obj : option Item) (attrs : list string) : M unit :=
  match attrs with
  | [] => ret tt
  | a :: rest =>
      match obj with
      | None => raise (AttributeError "NoneType" a)
      | Some it => _ <- lift (Item_getattr it a) ;; read_attrs obj rest
      end
  end.

Definition current_user_id : M Z :=
  e <- ask ;;
  match current_user e with
  | Some u => ret (User_id u)
  | None => raise (AttributeError "AnonymousUserMixin" "id")
  end.

(** ** The query interface *)

(** A query is not run until [.first()], [.all()] or iteration asks for its
    rows. *)
Definition Query (A : Type) : Type := Database -> list A.

Definition first {A} (q : Query A) : M (option A) :=
  d <- get_session ;; ret (hd_error (q d)).

Definition all {A} (q : Query A) : M (list A) :=
  d <- get_session ;; ret (q d).

(** A query object has no column attributes of the rows it would return. *)
Definition Query_getattr {A B} (_ : Query A) (attr : string) : M B :=
  raise (AttributeError "Query" attr).

(** [Query.get(self, ident)]: one parameter, named [ident]. *)
Definition bind_ident (args : list arg) : result pyval :=
  match args with
  | [Pos v] => Ok v
  | [] => Raise (TypeError "get" "ident")
  | Pos _ :: Pos _ :: _ => Raise (TypeError "get" "")
  | Kw k v :: rest =>
      if String.eqb k "ident"
      then match rest with [] => Ok v | _ => Raise (TypeError "get" "") end
      else Raise (TypeError "get" k)
  | Pos _ :: Kw k _ :: _ => Raise (TypeError "get" k)
  end.

Definition int_key_eqb (key : pyval) (z : Z) : bool :=
  match key with VInt k => Z.eqb k z | _ => false end.

Definition Item_query_get (args : list arg) : M (option Item) :=
  key <- lift (bind_ident args) ;;
  d <- get_session ;;
  ret (find (fun it => int_key_eqb key (Item_id it)) (items d)).

Definition Order_query_get (args : list arg) : M (option Order) :=
  key <- lift (bind_ident args) ;;
  d <- get_session ;;
  ret (find (fun o => int_key_eqb key (Order_order_num o)) (orders d)).

Definition opt_Z_eqb (o : option Z) (z : Z) : bool :=
  match o with Some v => Z.eqb v z | None => false end.

Definition Order_filter_by_user_id (uid : Z) : Query Order :=
  fun d => filter (fun o => opt_Z_eqb (Order_user_id o) uid) (orders d).

Definition User_filter_by_email_address (email : string) : Query User :=
  fun d => filter (fun u => String.eqb (User_email_address u) email) (users d).

Definition PlacedIn_filter_by_order_num (n : Z) : Query PlacedIn :=
  fun d => filter (fun p => Z.eqb (PlacedIn_order_num p) n) (placed_in d).

(** [Item.query.join(association_table).join(Order).filter(cond)]: the items
    that have a row of the association table satisfying [cond] whose order
    exists. *)
Definition Item_join_placed_in (cond : PlacedIn -> bool) : Query Item :=
  fun d =>
    flat_map (fun it =>
      flat_map (fun p =>
        if Z.eqb (PlacedIn_item_id p) (Item_id it) && cond p
        then flat_map (fun o =>
               if Z.eqb (Order_order_num o) (PlacedIn_order_num p) then [it] else [])
               (orders d)
        else [])
        (placed_in d))
      (items d).

(** ** The session: add, delete, commit *)

(** The key SQLite gives a new row of a table whose integer primary key is
    left out: one more than the largest key in use, or 1 in an empty table. *)
Fixpoint max_key (keys : list Z) : option Z :=
  match keys with
  | [] => None
  | k :: rest =>
      match max_key rest with
      | None => Some k
      | Some m => Some (Z.max k m)
      end
  end.

Definition next_key (keys : list Z) : Z :=
  match max_key keys with
  | None => 1
  | Some m => m + 1
  end.

Definition set_orders (d : Database) (os : list Order) : Database :=
  mkDatabase (users d) (billings d) (items d) os (placed_in d).

(** [db.session.add(Order(...))]: the row gets its [order_num] when it is
    flushed; the handlers read it only after the commit that follows. *)
Definition db_session_add_Order (date : option string) (total : option float)
    (uid ship : option Z) : M Order :=
  d <- get_session ;;
  let o := mkOrder (next_key (map Order_order_num (orders d))) date total uid ship in
  put_session (set_orders d (orders d ++ [o])) ;;;
  ret o.

(** [db.session.add(PlacedIn(...))]: [(item_id, order_num)] is the primary
    key, so a second row with the same pair is refused. *)
Definition db_session_add_PlacedIn (p : PlacedIn) : M unit :=
  d <- get_session ;;
  if existsb (fun q => Z.eqb (PlacedIn_item_id q) (PlacedIn_item_id p)
                       && Z.eqb (PlacedIn_order_num q) (PlacedIn_order_num p))
             (placed_in d)
  then raise (IntegrityError "placed_in")
  else put_session (mkDatabase (users d) (billings d) (items d) (orders d)
                               (placed_in d ++ [p])).

Definition db_session_add_User (f : SignUpData) : M User :=
  d <- get_session ;;
  let u := mkUser (next_key (map User_id (users d))) (su_username f) (su_email f)
                  (su_password_hash f) (su_phone_number f) (su_type f) (Some 1) in
  put_session (mkDatabase (users d ++ [u]) (billings d) (items d) (orders d)
                          (placed_in d)) ;;;
  ret u.

(** [card_number] is the primary key of [billing]. *)
Definition db_session_add_Billing (b : Billing) : M unit :=
  d <- get_session ;;
  if existsb (fun c => String.eqb (Billing_card_number c) (Billing_card_number b))
             (billings d)
  then raise (IntegrityError "billing")
  else put_session (mkDatabase (users d) (billings d ++ [b]) (items d) (orders d)
                               (placed_in d)).

(** [db.session.delete(item)] for a row of [Item]; the rows of the secondary
    table that point at it go with it. *)
Definition db_session_delete_Item (it : Item) : M unit :=
  d <- get_session ;;
  put_session
    (mkDatabase (users d) (billings d)
       (filter (fun i => negb (Z.eqb (Item_id i) (Item_id it))) (items d))
       (orders d)
       (filter (fun p => negb (Z.eqb (PlacedIn_item_id p) (Item_id it))) (placed_in d))).

(** [db.session.delete(rows)] where [rows] is the list [.all()] returned: a
    list is not a mapped instance. *)
Definition db_session_delete_list {A} (_ : list A) : M unit :=
  raise (UnmappedInstanceError "list").

(** [order_to_edit.total_price = total] *)
Definition Order_set_total_price (obj : option Order) (total : float) : M unit :=
  match obj with
  | None => raise (AttributeError "NoneType" "total_price")
  | Some o =>
      d <- get_session ;;
      put_session
        (set_orders d
           (map (fun o' =>
                   if Z.eqb (Order_order_num o') (Order_order_num o)
                   then mkOrder (Order_order_num o') (Order_order_date o') (Some total)
                                (Order_user_id o') (Order_shipping_provider_id o')
                   else o')
                (orders d)))
  end.

Definition db_session_commit : M unit :=
  fun _ w => (Ok tt, mkWorld (session w) (session w) (flashes w)).

Definition flash (msg : string) : M unit :=
  fun _ w => (Ok tt, mkWorld (stored w) (session w) (flashes w ++ [msg])).

(** ** Decorators (lines 54-62 and Flask-Login's [login_required]) *)

Definition abort {A} (code : Z) : M A := raise (HTTPException code).

Definition login_required {A} (f : M A) : M A :=
  e <- ask ;;
  match current_user e with
  | None => abort 401
  | Some _ => f
  end.

(** [current_user.type != "Customer"]: the anonymous user has no [type]. *)
Definition customer_only {A} (f : M A) : M A :=
  e <- ask ;;
  match current_user e with
  | None => raise (AttributeError "AnonymousUserMixin" "type")
  | Some u => if String.eqb (User_type u) "Customer" then f else abort 403
  end.

(** ** Pricing *)

(** [total_price += float(item.price)] (lines 653, 699, 731): binary64
    addition, the column being [db.Float]. *)
Definition price_step (total : float) (price : float) : float :=
  (total + price)%float.

(** The loop of lines 650-653, over rows of [PlacedIn]. *)
Definition total_of_combos (combos : list PlacedIn) : M float :=
  for_each combos
    (fun total item_order =>
       item <- Item_query_get [Kw "id" (VInt (PlacedIn_item_id item_order))] ;;
       price <- attr_of "price" Item_price item ;;
       ret (price_step total price))
    0%float.

(** The loop of lines 696-699, over the rows the join returned, which are
    rows of [Item]. *)
Definition total_of_joined (combos : list Item) : M float :=
  for_each combos
    (fun total item_order =>
       key <- lift (Item_getattr item_order "item_id") ;;
       item <- Item_query_get [Kw "id" key] ;;
       price <- attr_of "price" Item_price item ;;
       ret (price_step total price))
    0%float.

(** ** [customer_add_item] (lines 601-713) *)

(** Lines 625-665: the branch taken when the customer has an order and the
    item lookup is truthy. *)
Definition add_to_existing_order (item_name : string) : M response :=
  uid <- current_user_id ;;
  let matching_order := Order_filter_by_user_id uid in   (* no [.first()] *)
  matching_item <- Item_query_get [Kw "name" (VStr item_name)] ;;
  item_id <- attr_of "id" Item_id matching_item ;;
  order_num <- Query_getattr matching_order "order_num" ;;
  db_session_add_PlacedIn (mkPlacedIn item_id order_num) ;;;
  db_session_commit ;;;
  uid' <- current_user_id ;;
  all_item_order_combos <- all (PlacedIn_filter_by_order_num uid') ;;
  total_price <- total_of_combos all_item_order_combos ;;
  order_num' <- Query_getattr matching_order "order_num" ;;
  order_to_edit <- Order_query_get [Pos (VInt order_num')] ;;
  Order_set_total_price order_to_edit total_price ;;;
  db_session_commit ;;;
  flash "Item added to order!" ;;;
  ret (Redirect "view_order").

(** Lines 667-710: the branch that creates the order. *)
Definition add_to_new_order (item_name : string) : M response :=
  e <- ask ;;
  uid <- current_user_id ;;
  new_order <- db_session_add_Order (Some (now e)) (Some 0%float) (Some uid) (Some 1) ;;
  db_session_commit ;;;
  matching_item <- Item_query_get [Kw "name" (VStr item_name)] ;;
  global_name "association_table" ;;;
  global_name "association_table" ;;;
  all_item_order_combos <-
    all (Item_join_placed_in
           (fun p => Z.eqb (PlacedIn_order_num p) (Order_order_num new_order))) ;;
  total_price <- total_of_joined all_item_order_combos ;;
  order_to_edit <- Order_query_get [Pos (VInt (Order_order_num new_order))] ;;
  Order_set_total_price order_to_edit total_price ;;;
  db_session_commit ;;;
  flash "Item added to order!" ;;;
  ret (Redirect "view_order").

Definition is_some {A} (o : option A) : bool :=
  match o with Some _ => true | None => false end.

Definition customer_add_item_body (item_id : Z) : M response :=
  item_to_add <- Item_query_get [Pos (VInt item_id)] ;;
  read_attrs item_to_add
    ["name"; "img_url"; "price"; "sex"; "size"; "brand"; "type"; "weight"] ;;;
  e <- ask ;;
  if validate_on_submit e then
    let item_name := form_name e in
    (* [Order...first() and Item.query.get(name=item_name)] *)
    uid <- current_user_id ;;
    existing <- first (Order_filter_by_user_id uid) ;;
    both <- match existing with
            | None => ret false
            | Some _ =>
                found <- Item_query_get [Kw "name" (VStr item_name)] ;;
                ret (is_some found)
            end ;;
    if both then add_to_existing_order item_name
    else add_to_new_order item_name
  else ret (Render "customer-add-item.html" no_context).

Definition customer_add_item (item_id : Z) : M response :=
  customer_only (login_required (customer_add_item_body item_id)).

(** ** [view_order] (lines 716-757); a valid POST of the order form is the
    submission of the order *)

(** Lines 728-732: one round of the loop over the joined rows, carrying
    [order_price] and [order_items]. *)
Definition view_order_step (acc : float * list Item) (item_order : Item)
    : M (float * list Item) :=
  key <- lift (Item_getattr item_order "item_id") ;;
  item <- Item_query_get [Kw "id" key] ;;
  price <- attr_of "price" Item_price item ;;
  ret (price_step (fst acc) price,
       snd acc ++ match item with Some it => [it] | None => [] end).

(** Lines 746-748: one round of the loop of the submission. *)
Definition submit_step (_ : unit) (record : Item) : M unit :=
  db_session_delete_Item record ;;;
  db_session_commit.

Definition view_order_body : M response :=
  uid <- current_user_id ;;
  order_to_view <- first (Order_filter_by_user_id uid) ;;
  global_name "association_table" ;;;
  global_name "association_table" ;;;
  order_num <- attr_of "order_num" Order_order_num order_to_view ;;
  all_item_order_combos <-
    all (Item_join_placed_in (fun p => Z.eqb (PlacedIn_order_num p) order_num)) ;;
  priced <- for_each all_item_order_combos view_order_step (0%float, []) ;;
  let order_price := fst priced in
  let order_items := snd priced in
  e <- ask ;;
  if validate_on_submit e then
    global_name "association_table" ;;;
    global_name "association_table" ;;;
    order_num' <- attr_of "order_num" Order_order_num order_to_view ;;
    records_to_delete <-
      all (Item_join_placed_in (fun p => Z.eqb (PlacedIn_order_num p) order_num')) ;;
    for_each records_to_delete submit_step tt ;;;
    uid' <- current_user_id ;;
    order_to_delete_from <- first (Order_filter_by_user_id uid') ;;
    ret (Render "order-submitted.html" no_context)
  else ret (Render "view-order.html" (mkContext order_items order_price)).

Definition view_order : M response :=
  customer_only (login_required view_order_body).

(** ** [delete_order_item] (lines 760-776) *)

Definition delete_order_item_body (item_id : Z) : M response :=
  item_to_delete <- Item_query_get [Pos (VInt item_id)] ;;
  uid <- current_user_id ;;
  order_to_delete_from <- first (Order_filter_by_user_id uid) ;;
  global_name "association_table" ;;;
  global_name "association_table" ;;;
  id <- attr_of "id" Item_id item_to_delete ;;
  global_name "association_table" ;;;
  order_num <- attr_of "order_num" Order_order_num order_to_delete_from ;;
  record_to_delete <-
    all (Item_join_placed_in
           (fun p => Z.eqb (PlacedIn_item_id p) id
                     && Z.eqb (PlacedIn_order_num p) order_num)) ;;
  db_session_delete_list record_to_delete ;;;
  db_session_commit ;;;
  ret (Redirect "view_order").

Definition delete_order_item (item_id : Z) : M response :=
  customer_only (login_required (delete_order_item_body item_id)).

(** ** [sign_up] (lines 323-427) *)

Definition sign_up : M response :=
  e <- ask ;;
  if validate_on_submit e then
    let form := signup_data e in
    taken <- first (User_filter_by_email_address (su_email form)) ;;
    if is_some taken then
      flash "Sorry, this email has already been registered. Please log in instead." ;;;
      ret (Redirect "login")
    else
      new_user <- db_session_add_User form ;;
      db_session_commit ;;;
      let new_billing := mkBilling (su_card_number form) (su_expiry_date form)
                                   (su_cvv form) (Some (User_id new_user)) in
      (* [new_order = Order(user_id=new_user.id)] is built here and never
         handed to the session *)
      let new_order := mkOrder 0 None None (Some (User_id new_user)) None in
      db_session_add_Billing new_billing ;;;
      db_session_commit ;;;
      ret (Redirect "home")
  else ret (Render "signup.html" no_context).

(** ** Requests *)

Inductive operation :=
| SignUp
| AddItem (item_id : Z)
| RemoveItem (item_id : Z)
| ViewOrder.     (* also the submission, when the order form is posted *)

Definition handler (op : operation) : M response :=
  match op with
  | SignUp => sign_up
  | AddItem item_id => customer_add_item item_id
  | RemoveItem item_id => delete_order_item item_id
  | ViewOrder => view_order
  end.

Definition serve (op : operation) (e : Env) (d : Database)
    : result response * Database :=
  run (handler op) e d.

(** The database after a sequence of requests, each with its own
    environment. *)
Definition serve_all (reqs : list (operation * Env)) (d : Database) : Database :=
  fold_left (fun d' r => snd (serve (fst r) (snd r) d')) reqs d.

(** ** The module's top-level statements (lines 1-817)

    Importing [main2] runs its top-level statements in order.  A statement
    reads names (a class statement reads every name its body evaluates, a
    decorated [def] reads its decorators), then binds names; a [def] under
    [@app.route] also registers its endpoint.  Bodies of functions are not
    run at import. *)

Inductive ref :=
| Name (n : string)          (* a module-level or builtin name *)
| DbAttr (attr : string).    (* [db.attr] *)

Record stmt := mkStmt {
  stmt_reads : list (Z * ref);     (* with the line of each read *)
  stmt_binds : list string;
  stmt_route : option string
}.

Definition names (line : Z) (ns : list string) : list (Z * ref) :=
  map (fun n => (line, Name n)) ns.

Definition FromImport (ns : list string) : stmt := mkStmt [] ns None.
Definition ExprStmt (reads : list (Z * ref)) : stmt := mkStmt reads [] None.
Definition Assign (target : string) (reads : list (Z * ref)) : stmt :=
  mkStmt reads [target] None.
Definition FunctionDef (name : string) (decorators : list (Z * ref)) : stmt :=
  mkStmt decorators [name] None.
Definition RouteDef (name : string) (decorators : list (Z * ref)) : stmt :=
  mkStmt decorators [name] (Some name).
Definition ClassDef (name : string) (body : list (list (Z * ref))) : stmt :=
  mkStmt (List.concat body) [name] None.

(** [x = db.Column(db.T, ...)] *)
Definition col (line : Z) (ty : string) : list (Z * ref) :=
  [(line, DbAttr "Column"); (line, DbAttr ty)].
(** [x = db.Column(db.Integer, db.ForeignKey(...))] *)
Definition fk (line : Z) : list (Z * ref) :=
  [(line, DbAttr "Column"); (line, DbAttr "Integer"); (line, DbAttr "ForeignKey")].
(** [x = relationship(...)] with string and keyword-literal arguments *)
Definition rel (line : Z) : list (Z * ref) := [(line, Name "relationship")].
Definition base (line : Z) : list (Z * ref) := [(line, DbAttr "Model")].

Definition main2 : list stmt :=
  [ FromImport ["Flask"; "render_template"; "redirect"; "url_for"; "flash"; "abort"];
    FromImport ["Bootstrap"];
    FromImport ["SQLAlchemy"];
    FromImport ["relationship"; "DeclarativeBase"; "Mapped"; "mapped_column";
            "composite"; "with_polymorphic"];
    FromImport ["LoginManager"; "UserMixin"; "current_user"; "login_required";
            "login_user"; "logout_user"];
    FromImport ["generate_password_hash"; "check_password_hash"];
    FromImport ["load_dotenv"];
    FromImport ["os"];
    FromImport ["datetime"];
    FromImport ["wraps"];
    FromImport ["SignUpForm"; "LoginForm"; "ItemForm"; "BillingForm"; "OrderForm"];
    Assign "CURRENT_YEAR" (names 14 ["datetime"]);
    ExprStmt (names 17 ["load_dotenv"]);
    Assign "app" (names 20 ["Flask"; "__name__"]);
    ExprStmt (names 22 ["app"]);
    ExprStmt (names 24 ["app"]);
    ExprStmt (names 27 ["os"; "app"]);
    ExprStmt (names 30 ["Bootstrap"; "app"]);
    Assign "db" (names 32 ["SQLAlchemy"; "app"]);
    Assign "login_manager" (names 36 ["LoginManager"]);
    ExprStmt (names 38 ["login_manager"; "app"]);
    FunctionDef "admin_only" [];
    FunctionDef "customer_only" [];
    (* lines 66-69, the assignment to [association_table], are a comment *)
    ClassDef "PlacedIn"
      [ base 72;
        [(74, DbAttr "Column"); (74, DbAttr "Integer"); (74, DbAttr "ForiegnKey")];
        fk 75 ];
    ClassDef "User"
      [ names 79 ["UserMixin"]; base 79;
        col 82 "Integer"; col 83 "String"; col 84 "String"; col 85 "String";
        col 86 "String"; col 87 "String";
        rel 98; rel 101; rel 106; rel 109; rel 112; fk 115; rel 116 ];
    ClassDef "Warehouse"
      [ base 163; col 166 "Integer"; col 167 "String"; col 168 "String";
        fk 174; rel 175; fk 178; rel 179 ];
    ClassDef "Inventory"
      [ base 182; col 185 "Integer"; col 186 "Integer"; col 187 "String";
        rel 190; fk 193; rel 194; rel 197 ];
    ClassDef "Item"
      [ base 200; col 203 "Integer"; col 204 "String"; col 205 "String";
        col 206 "Float"; col 207 "String"; col 208 "String"; col 209 "String";
        col 210 "String"; col 211 "Float"; col 212 "String";
        fk 215; rel 216; fk 219; rel 220;
        names 223 ["relationship"; "association_table"] ];
    ClassDef "Billing"
      [ base 246; col 249 "String"; col 250 "String"; col 251 "String";
        fk 254; rel 255 ];
    ClassDef "Order"
      [ base 258; col 261 "Integer"; col 262 "String"; col 263 "Float";
        fk 266; rel 267; fk 270; rel 271;
        names 274 ["relationship"; "association_table"] ];
    ClassDef "ShippingProvider"
      [ base 277; col 280 "Integer"; col 281 "String"; col 282 "Float";
        rel 285; rel 288 ];
    ExprStmt [(291, Name "app"); (292, DbAttr "create_all")];
    FunctionDef "load_user" (names 295 ["login_manager"]);
    RouteDef "home" (names 301 ["app"]);
    RouteDef "sign_up" (names 323 ["app"]);
    RouteDef "login" (names 430 ["app"]);
    RouteDef "owner_add_item"
      [(465, Name "app"); (466, Name "admin_only"); (467, Name "login_required")];
    RouteDef "edit_item"
      [(516, Name "app"); (517, Name "admin_only"); (518, Name "login_required")];
    RouteDef "delete_item"
      [(581, Name "app"); (582, Name "admin_only"); (583, Name "login_required")];
    RouteDef "customer_add_item"
      [(601, Name "app"); (602, Name "customer_only"); (603, Name "login_required")];
    RouteDef "view_order"
      [(716, Name "app"); (717, Name "customer_only"); (718, Name "login_required")];
    RouteDef "delete_order_item"
      [(760, Name "app"); (761, Name "customer_only"); (762, Name "login_required")];
    RouteDef "edit_billing"
      [(779, Name "app"); (780, Name "customer_only"); (781, Name "login_required")];
    RouteDef "logout" [(806, Name "app"); (807, Name "login_required")];
    ExprStmt (names 816 ["__name__"]) ].

Record Namespace := mkNamespace {
  bound : list string;
  routes : list string
}.

Inductive load_result :=
| Loaded (ns : Namespace)
| Crashed (line : Z) (e : exn) (ns : Namespace).

Definition is_bound (n : string) (ns : Namespace) : bool :=
  existsb (String.eqb n) (bound ns).

(** The first read that fails, with its line. [db_has] says which attributes
    the [SQLAlchemy] object answers to. *)
Fixpoint eval_reads (db_has : string -> bool) (ns : Namespace)
    (reads : list (Z * ref)) : option (Z * exn) :=
  match reads with
  | [] => None
  | (line, Name n) :: rest =>
      if is_bound n ns then eval_reads db_has ns rest
      else Some (line, NameError n)
  | (line, DbAttr a) :: rest =>
      if is_bound "db" ns then
        if db_has a then eval_reads db_has ns rest
        else Some (line, AttributeError "SQLAlchemy" a)
      else Some (line, NameError "db")
  end.

Definition exec_stmt (db_has : string -> bool) (ns : Namespace) (s : stmt)
    : load_result :=
  match eval_reads db_has ns (stmt_reads s) with
  | Some (line, e) => Crashed line e ns
  | None =>
      Loaded (mkNamespace (bound ns ++ stmt_binds s)
                (routes ns ++ match stmt_route s with
                              | Some ep => [ep]
                              | None => []
                              end))
  end.

Fixpoint exec (db_has : string -> bool) (prog : list stmt) (ns : Namespace)
    : load_result :=
  match prog with
  | [] => Loaded ns
  | s :: rest =>
      match exec_stmt db_has ns s with
      | Loaded ns' => exec db_has rest ns'
      | Crashed line e ns' => Crashed line e ns'
      end
  end.

(** What the import system binds before the first line runs. *)
Definition fresh_module : Namespace := mkNamespace ["__name__"] [].

Definition load_module (db_has : string -> bool) : load_result :=
  exec db_has main2 fresh_module.

(** The names the statements of the module bind, were all of them to run. *)
Definition module_globals : list string :=
  bound fresh_module ++ flat_map stmt_binds main2.

(** The attributes of [db] the module spells as SQLAlchemy does. *)
Definition flask_sqlalchemy_names (a : string) : bool :=
  existsb (String.eqb a)
    ["Model"; "Column"; "Integer"; "String"; "Float"; "ForeignKey"; "Table";
     "create_all"; "session"].

(** The endpoints of the order subsystem. *)
Definition order_endpoints : list string :=
  ["customer_add_item"; "view_order"; "delete_order_item"].

(** ** What the claims speak of *)

(** The rows of [placed_in] of an order, the prices they stand for, and the
    sum the pricing loop would give for them. *)
Definition line_items (d : Database) (order_num : Z) : list PlacedIn :=
  PlacedIn_filter_by_order_num order_num d.

Definition line_item_prices (d : Database) (order_num : Z) : list float :=
  flat_map
    (fun p => map Item_price
                (filter (fun it => Z.eqb (Item_id it) (PlacedIn_item_id p)) (items d)))
    (line_items d order_num).

Definition sum_prices (prices : list float) : float :=
  fold_left price_step prices 0%float.

(** I3: the stored total of every order is the sum over its line items. *)
Definition total_consistent (d : Database) : Prop :=
  forall o, In o (orders d) ->
    Order_total_price o = Some (sum_prices (line_item_prices d (Order_order_num o))).

(** I1, on the order side: every line item names an order that exists. *)
Definition line_items_attached (d : Database) : Prop :=
  forall p, In p (placed_in d) ->
    exists o, In o (orders d) /\ Order_order_num o = PlacedIn_order_num p.

(** I2: no user has two orders. *)
Definition one_order_each (d : Database) : Prop :=
  forall uid, (List.length (Order_filter_by_user_id uid d) <= 1)%nat.

(** The typed failure the specification calls [NotFound]. *)
Definition NotFound : exn := HTTPException 404.

Definition is_customer (e : Env) (u : User) : Prop :=
  current_user e = Some u /\ User_type u = "Customer".

(** The order row [customer_add_item] creates for [u]. *)
Definition fresh_order (e : Env) (u : User) (d : Database) : Order :=
  mkOrder (next_key (map Order_order_num (orders d))) (Some (now e))
          (Some 0%float) (Some (User_id u)) (Some 1).

(** What the creating branch leaves behind: the order, committed, and the
    [TypeError] of the lookup that follows the commit. *)
Definition world_with_order (e : Env) (u : User) (w : World) : World :=
  let d := set_orders (session w) (orders (session w) ++ [fresh_order e u (session w)]) in
  mkWorld d d (flashes w).

(** How a run of [customer_add_item] can end, in terms of the session. *)
Inductive add_outcome (e : Env) (w : World) : result response * World -> Prop :=
| add_raises x :
    add_outcome e w (Raise x, w)
| add_renders :
    validate_on_submit e = false ->
    add_outcome e w (Ok (Render "customer-add-item.html" no_context), w)
| add_creates u :
    current_user e = Some u ->
    validate_on_submit e = true ->
    Order_filter_by_user_id (User_id u) (session w) = [] ->
    add_outcome e w (Raise (TypeError "get" "name"), world_with_order e u w).

(** The same in terms of the committed rows. *)
Inductive add_served (e : Env) (d : Database) : result response * Database -> Prop :=
| served_unchanged r :
    add_served e d (r, d)
| served_created u :
    current_user e = Some u ->
    validate_on_submit e = true ->
    Order_filter_by_user_id (User_id u) d = [] ->
    add_served e d
      (Raise (TypeError "get" "name"),
       set_orders d (orders d ++ [fresh_order e u d])).

(** ** The scenario of the specification: customer 7, items A and B *)

Definition customer_7 : User :=
  mkUser 7 "C" "c@example.org" "pbkdf2:sha256" None "Customer" (Some 1).

Definition item_A : Item :=
  mkItem 1 "a.png" "A" 19.99%float None None None None None None (Some 2) (Some 1).

Definition item_B : Item :=
  mkItem 2 "b.png" "B" 5%float None None None None None None (Some 2) (Some 1).

Definition no_signup : SignUpData :=
  mkSignUpData "" "" "" None "" "" None None.

Definition the_date : string := "November 03, 2026 at 10:00AM".

(** A valid POST by customer 7 naming item A, in a module namespace [G]. *)
Definition post_by_7 (G : list string) : Env :=
  mkEnv G (Some customer_7) true true "A" no_signup the_date.

(** A GET by customer 7. *)
Definition get_by_7 (G : list string) : Env :=
  mkEnv G (Some customer_7) false false "" no_signup the_date.

(** The shop before customer 7 has an order. *)
Definition shop : Database :=
  mkDatabase [customer_7] [] [item_A; item_B] [] [].

(** Customer 7 has order 1 holding item A. *)
Definition cart : Database :=
  mkDatabase [customer_7] [] [item_A; item_B]
    [mkOrder 1 (Some the_date) (Some 19.99%float) (Some 7) (Some 1)]
    [mkPlacedIn 1 1].

(** A second customer, posting item B in the module namespace as written. *)
Definition other_customer : User :=
  mkUser 8 "D" "d@example.org" "pbkdf2:sha256" None "Customer" (Some 1).

Definition post_by_8 : Env :=
  mkEnv module_globals (Some other_customer) true true "B" no_signup the_date.

(** A statement may run before the failing one if it neither binds the name
    nor registers a route. *)
Definition harmless (n : string) (s : stmt) : bool :=
  negb (existsb (String.eqb n) (stmt_binds s)) &&
  match stmt_route s with None => true | Some _ => false end.

(** ** The owner's handlers and the rest of the routes *)

(** [admin_only] (lines 42-50). *)
Definition admin_only {A} (f : M A) : M A :=
  e <- ask ;;
  match current_user e with
  | None => raise (AttributeError "AnonymousUserMixin" "type")
  | Some u => if String.eqb (User_type u) "Owner" then f else abort 403
  end.

(** The fields of a submitted [ItemForm] besides [name], which is
    [form_name] of the environment. *)
Record ItemFields := mkItemFields {
  if_img_url : string;
  if_price : float;
  if_sex : option string;
  if_size : option string;
  if_brand : option string;
  if_type : option string;
  if_weight : option float;
  if_color : option string
}.

Record BillingFormData := mkBillingFormData {
  bf_card_number : string;
  bf_expiry_date : option string;
  bf_cvv : option string
}.

Record LoginFormData := mkLoginFormData {
  lf_email : string;
  lf_password : string
}.

Definition Item_filter_by_name (name : string) : Query Item :=
  fun d => filter (fun it => String.eqb (Item_name it) name) (items d).

Definition Billing_filter_by_user_id (uid : Z) : Query Billing :=
  fun d => filter (fun b => opt_Z_eqb (Billing_user_id b) uid) (billings d).

Definition set_items (d : Database) (its : list Item) : Database :=
  mkDatabase (users d) (billings d) its (orders d) (placed_in d).

(** [db.session.add(Item(...))] of lines 483-497. *)
Definition db_session_add_Item (name : string) (f : ItemFields) (uid : Z) : M Item :=
  d <- get_session ;;
  let it := mkItem (next_key (map Item_id (items d))) (if_img_url f) name (if_price f)
                   (if_sex f) (if_size f) (if_brand f) (if_type f) (if_weight f)
                   (if_color f) (Some uid) (Some 1) in
  put_session (set_items d (items d ++ [it])) ;;;
  ret it.

(** [owner_add_item] (lines 465-513). *)
Definition owner_add_item_body (f : ItemFields) : M response :=
  e <- ask ;;
  if validate_on_submit e then
    let new_item_name := form_name e in
    taken <- first (Item_filter_by_name new_item_name) ;;
    if is_some taken then
      flash "Sorry! You already have an item with this name. Please enter another one." ;;;
      ret (Redirect "owner_add_item")
    else
      uid <- current_user_id ;;
      item_to_add <- db_session_add_Item new_item_name f uid ;;
      db_session_commit ;;;
      ret (Redirect "home")
  else ret (Render "add-item.html" no_context).

Definition owner_add_item (f : ItemFields) : M response :=
  admin_only (login_required (owner_add_item_body f)).

(** Lines 556-564: the assignments to the columns of the row. *)
Definition Item_assign (it : Item) (name : string) (f : ItemFields) : Item :=
  mkItem (Item_id it) (if_img_url f) name (if_price f) (if_sex f) (if_size f)
         (if_brand f) (if_type f) (if_weight f) (if_color f)
         (Item_user_id it) (Item_inventory_id it).

Definition Item_update (obj : option Item) (name : string) (f : ItemFields) : M unit :=
  match obj with
  | None => raise (AttributeError "NoneType" "name")
  | Some it =>
      d <- get_session ;;
      put_session
        (set_items d
           (map (fun i => if Z.eqb (Item_id i) (Item_id it)
                          then Item_assign i name f else i)
                (items d)))
  end.

(** [edit_item] (lines 516-578). *)
Definition edit_item_body (item_id : Z) (f : ItemFields) : M response :=
  item_to_edit <- Item_query_get [Pos (VInt item_id)] ;;
  read_attrs item_to_edit
    ["name"; "img_url"; "price"; "sex"; "size"; "brand"; "type"; "weight"; "color"] ;;;
  e <- ask ;;
  if validate_on_submit e then
    Item_update item_to_edit (form_name e) f ;;;
    db_session_commit ;;;
    ret (Redirect "home")
  else ret (Render "add-item.html" no_context).

Definition edit_item (item_id : Z) (f : ItemFields) : M response :=
  admin_only (login_required (edit_item_body item_id f)).

(** [db.session.delete(obj)] where [obj] is what [Item.query.get] returned:
    [None] is not a mapped instance. *)
Definition db_session_delete (obj : option Item) : M unit :=
  match obj with
  | None => raise (UnmappedInstanceError "NoneType")
  | Some it => db_session_delete_Item it
  end.

(** [delete_item] (lines 581-598). *)
Definition delete_item_body (item_id : Z) : M response :=
  item_to_delete <- Item_query_get [Pos (VInt item_id)] ;;
  db_session_delete item_to_delete ;;;
  db_session_commit ;;;
  ret (Redirect "home").

Definition delete_item (item_id : Z) : M response :=
  admin_only (login_required (delete_item_body item_id)).

(** What [edit_billing] ends with.  [url_for("edit_billing", username=...)]
    at line 800 gives no value for the [user_id] of the rule
    [/edit-billing/<int:user_id>], so werkzeug raises [BuildError]; it is the
    last thing the handler does and is carried here as a value. *)
Inductive billing_response :=
| BillingPage (r : response)
| BuildError (endpoint missing : string).

(** The assignments of lines 794-796, flushed by the commit: the card number
    is the primary key and may not collide with another row. *)
Definition Billing_update (obj : option Billing) (f : BillingFormData) : M unit :=
  match obj with
  | None => raise (AttributeError "NoneType" "card_number")
  | Some b =>
      d <- get_session ;;
      if negb (String.eqb (bf_card_number f) (Billing_card_number b))
         && existsb (fun c => String.eqb (Billing_card_number c) (bf_card_number f))
                    (billings d)
      then raise (IntegrityError "billing")
      else
        put_session
          (mkDatabase (users d)
             (map (fun c => if String.eqb (Billing_card_number c) (Billing_card_number b)
                            then mkBilling (bf_card_number f) (bf_expiry_date f)
                                           (bf_cvv f) (Billing_user_id c)
                            else c)
                  (billings d))
             (items d) (orders d) (placed_in d))
  end.

(** [edit_billing] (lines 779-803); [user_id] comes from the URL. *)
Definition edit_billing_body (user_id : Z) (f : BillingFormData) : M billing_response :=
  billing_to_edit <- first (Billing_filter_by_user_id user_id) ;;
  attr_of "card_number" Billing_card_number billing_to_edit ;;;
  attr_of "expiry_date" Billing_expiry_date billing_to_edit ;;;
  attr_of "cvv" Billing_cvv billing_to_edit ;;;
  e <- ask ;;
  if validate_on_submit e then
    Billing_update billing_to_edit f ;;;
    db_session_commit ;;;
    ret (BuildError "edit_billing" "user_id")
  else ret (BillingPage (Render "add-billing.html" no_context)).

Definition edit_billing (user_id : Z) (f : BillingFormData) : M billing_response :=
  customer_only (login_required (edit_billing_body user_id f)).

(** [login] (lines 430-462).  [check] is werkzeug's [check_password_hash];
    beside the response the handler returns the user it handed to
    [login_user], if any. *)
Definition login (check : string -> string -> bool) (f : LoginFormData)
    : M (response * option User) :=
  e <- ask ;;
  if validate_on_submit e then
    requested_user <- first (User_filter_by_email_address (lf_email f)) ;;
    match requested_user with
    | Some u =>
        if check (User_password u) (lf_password f) then
          ret (Redirect "home", Some u)
        else
          flash "Sorry, wrong password! Please try again." ;;;
          ret (Redirect "login", None)
    | None =>
        flash "Sorry, that email does not exist! Please try again." ;;;
        ret (Redirect "login", None)
    end
  else ret (Render "login.html" no_context, None).

(** [logout] (lines 806-812). *)
Definition logout : M response := login_required (ret (Redirect "home")).

(** ** [home] (lines 301-320) *)

Definition opt_string_eqb (a b : option string) : bool :=
  match a, b with
  | Some x, Some y => String.eqb x y
  | None, None => true
  | _, _ => false
  end.

(** Lines 304-309: the types in order of first appearance. *)
Definition clothing_types (its : list Item) : list (option string) :=
  fold_left
    (fun acc it =>
       if existsb (opt_string_eqb (Item_type it)) acc then acc
       else acc ++ [Item_type it])
    its [].

(** [str.lower] applied to every element, as [sorted] does before it
    compares anything; [None] is not a [str]. *)
Fixpoint lowered (lower : string -> string) (types : list (option string))
    : result (list string) :=
  match types with
  | [] => Ok []
  | None :: _ => Raise (TypeError "lower" "NoneType")
  | Some t :: rest =>
      match lowered lower rest with
      | Ok ts => Ok (t :: ts)
      | Raise x => Raise x
      end
  end.

Fixpoint insert_by (key : string -> string) (t : string) (sorted : list string)
    : list string :=
  match sorted with
  | [] => [t]
  | u :: rest =>
      if String.leb (key t) (key u) then t :: sorted
      else u :: insert_by key t rest
  end.

(** [sorted(ts, key=key)]: a stable sort, which for a given input and key has
    one result; here by insertion from the right. *)
Definition sorted_by (key : string -> string) (ts : list string) : list string :=
  fold_right (insert_by key) [] ts.

(** The handler: the response, and [all_types] handed to the template. *)
Definition home (lower : string -> string) : M (response * list string) :=
  its <- all (fun d => items d) ;;
  all_types <- lift (lowered lower (clothing_types its)) ;;
  ret (Render "index.html" (mkContext its 0%float), sorted_by lower all_types).

(** ** Every request *)

Inductive request :=
| CustomerRequest (op : operation)
| OwnerAddItem (f : ItemFields)
| EditItem (item_id : Z) (f : ItemFields)
| DeleteItem (item_id : Z)
| EditBilling (user_id : Z) (f : BillingFormData)
| Login (check : string -> string -> bool) (f : LoginFormData)
| Logout
| Home (lower : string -> string).

(** The committed database after a request. *)
Definition after (r : request) (e : Env) (d : Database) : Database :=
  match r with
  | CustomerRequest op => snd (serve op e d)
  | OwnerAddItem f => snd (run (owner_add_item f) e d)
  | EditItem item_id f => snd (run (edit_item item_id f) e d)
  | DeleteItem item_id => snd (run (delete_item item_id) e d)
  | EditBilling user_id f => snd (run (edit_billing user_id f) e d)
  | Login check f => snd (run (login check f) e d)
  | Logout => snd (run logout e d)
  | Home lower => snd (run (home lower) e d)
  end.

Definition after_all (reqs : list (request * Env)) (d : Database) : Database :=
  fold_left (fun d' r => after (fst r) (snd r) d') reqs d.

(** ** Notions and data for the further properties *)

Definition is_owner (e : Env) (u : User) : Prop :=
  current_user e = Some u /\ User_type u = "Owner".

Definition anonymous_get : Env :=
  mkEnv module_globals None false false "" no_signup the_date.

(** The row [owner_add_item] stores for owner [u]. *)
Definition new_item (e : Env) (u : User) (f : ItemFields) (d : Database) : Item :=
  mkItem (next_key (map Item_id (items d))) (if_img_url f) (form_name e) (if_price f)
         (if_sex f) (if_size f) (if_brand f) (if_type f) (if_weight f) (if_color f)
         (Some (User_id u)) (Some 1).

Definition owner_2 : User :=
  mkUser 2 "O" "o@example.org" "pbkdf2:sha256" None "Owner" (Some 1).

(** A valid POST by owner 2 whose item form carries [name]. *)
Definition post_by_owner (name : string) : Env :=
  mkEnv module_globals (Some owner_2) true true name no_signup the_date.

Definition fields_C : ItemFields :=
  mkItemFields "c.png" 25%float None None None (Some "Shirt") None None.

(** The items after the row with id [k] took the submitted fields. *)
Definition edit_rows (k : Z) (name : string) (f : ItemFields) (its : list Item)
    : list Item :=
  map (fun i => if Z.eqb (Item_id i) k then Item_assign i name f else i) its.

(** The database without the item with id [k] and its rows of placed_in. *)
Definition without_item (k : Z) (d : Database) : Database :=
  mkDatabase (users d) (billings d)
    (filter (fun i => negb (Z.eqb (Item_id i) k)) (items d))
    (orders d)
    (filter (fun p => negb (Z.eqb (PlacedIn_item_id p) k)) (placed_in d)).

(** Owner 2 renames item A, which owner 2 stored, and reprices it. *)
Definition fields_A' : ItemFields :=
  mkItemFields "a.png" 25%float None None None None None None.

Definition foreign_owner : User :=
  mkUser 3 "P" "p@example.org" "pbkdf2:sha256" None "Owner" (Some 1).

(** A valid POST by owner 3, who stored none of the items. *)
Definition post_by_foreign_owner (name : string) : Env :=
  mkEnv module_globals (Some foreign_owner) true true name no_signup the_date.

(** Every row of placed_in names a stored item. *)
Definition line_items_name_items (d : Database) : Prop :=
  forall p, In p (placed_in d) ->
    exists it, In it (items d) /\ Item_id it = PlacedIn_item_id p.

(** The billings after the row with card number [old] took the submitted
    values. *)
Definition rebill (old : string) (f : BillingFormData) (bs : list Billing) : list Billing :=
  map (fun c => if String.eqb (Billing_card_number c) old
                then mkBilling (bf_card_number f) (bf_expiry_date f) (bf_cvv f)
                               (Billing_user_id c)
                else c) bs.

Definition set_billings (d : Database) (bs : list Billing) : Database :=
  mkDatabase (users d) bs (items d) (orders d) (placed_in d).

(** The user row [sign_up] stores, and the database with it. *)
Definition signed_up (e : Env) (d : Database) : User :=
  mkUser (next_key (map User_id (users d))) (su_username (signup_data e))
         (su_email (signup_data e)) (su_password_hash (signup_data e))
         (su_phone_number (signup_data e)) (su_type (signup_data e)) (Some 1).

Definition with_user (e : Env) (d : Database) : Database :=
  mkDatabase (users d ++ [signed_up e d]) (billings d) (items d) (orders d)
             (placed_in d).

Definition card_taken (e : Env) (d : Database) : bool :=
  existsb (fun c => String.eqb (Billing_card_number c) (su_card_number (signup_data e)))
          (billings d).

Definition signup_D : SignUpData :=
  mkSignUpData "D" "d@example.org" "hash-of-secret" None "Customer" "4111" None None.

Definition post_signup (f : SignUpData) : Env :=
  mkEnv module_globals None true true "" f the_date.

(** Customer 7 signed up with card 4111. *)
Definition shop_with_billing : Database :=
  mkDatabase [customer_7] [mkBilling "4111" None None (Some 7)] [item_A; item_B] [] [].

(** A password check for the examples: the hash is the password with a
    prefix. *)
Definition toy_check (pwhash password : string) : bool :=
  String.eqb pwhash ("hash-of-" ++ password).

Definition post_login : Env :=
  mkEnv module_globals None true true "" no_signup the_date.

Definition user_D : User :=
  mkUser 8 "D" "d@example.org" "hash-of-secret" None "Customer" (Some 1).

Definition two_users : Database :=
  mkDatabase [customer_7; user_D] [] [item_A; item_B] [] [].

(** Customers 7 and 8, each with a billing row. *)
Definition two_billings : Database :=
  mkDatabase [customer_7; other_customer]
    [mkBilling "4111" None None (Some 7); mkBilling "4222" None None (Some 8)]
    [item_A; item_B] [] [].

Definition new_card : BillingFormData :=
  mkBillingFormData "4333" (Some "12/30") (Some "123").

(** [a] comes no later than [b] under the sort key. *)
Definition key_le (key : string -> string) (a b : string) : Prop :=
  String.leb (key a) (key b) = true.

(** Lower case for the letters A-Z, as an instance of [str.lower] for the
    examples. *)
Definition ascii_lower (c : Ascii.ascii) : Ascii.ascii :=
  let n := Ascii.nat_of_ascii c in
  if (Nat.leb 65 n && Nat.leb n 90)%bool then Ascii.ascii_of_nat (n + 32) else c.

Fixpoint lower_ascii (s : string) : string :=
  match s with
  | EmptyString => EmptyString
  | String c rest => String (ascii_lower c) (lower_ascii rest)
  end.

Definition typed (k : Z) (t : option string) : Item :=
  mkItem k "x.png" "x" 1%float None None None t None None (Some 2) (Some 1).

Definition wardrobe : Database :=
  mkDatabase [] []
    [typed 1 (Some "shirt"); typed 2 (Some "Hat"); typed 3 (Some "shirt");
     typed 4 (Some "coat")] [] [].

(** ** Requests and data for the order theorems *)


(** A GET by owner 2, and one by owner 3. *)
Definition get_by_owner : Env :=
  mkEnv module_globals (Some owner_2) false false "" no_signup the_date.

Definition get_by_foreign_owner : Env :=
  mkEnv module_globals (Some foreign_owner) false false "" no_signup the_date.


(** * Properties *)

(** ** The loops over joined rows stop at the first row *)

Lemma Item_has_no_item_id (it : Item) :
  Item_getattr it "item_id" = Raise (AttributeError "Item" "item_id").
Proof. reflexivity. Qed.

Lemma view_order_loop (combos : list Item) (e : Env) (w : World) :
  for_each combos view_order_step (0%float, []) e w =
  match combos with
  | [] => (Ok (0%float, []), w)
  | _ :: _ => (Raise (AttributeError "Item" "item_id"), w)
  end.
Proof. destruct combos; reflexivity. Qed.

Lemma total_of_joined_loop (combos : list Item) (e : Env) (w : World) :
  total_of_joined combos e w =
  match combos with
  | [] => (Ok 0%float, w)
  | _ :: _ => (Raise (AttributeError "Item" "item_id"), w)
  end.
Proof. destruct combos; reflexivity. Qed.

Lemma total_of_combos_loop (combos : list PlacedIn) (e : Env) (w : World) :
  total_of_combos combos e w =
  match combos with
  | [] => (Ok 0%float, w)
  | _ :: _ => (Raise (TypeError "get" "id"), w)
  end.
Proof. destruct combos; reflexivity. Qed.

(** ** [view_order] and [delete_order_item] write nothing *)

(** Unfolds the plumbing of the monad and leaves the queries folded. *)
Ltac step_handler :=
  cbv beta iota delta
    [bind ret raise lift ask get_session put_session first all attr_of
     global_name current_user_id Query_getattr abort login_required
     customer_only fst snd].

(** Steps as far as the facts in the context allow. *)
Ltac crank :=
  repeat (step_handler;
          repeat match goal with
                 | H : ?x = _ |- context [?x] => rewrite H
                 end).

Lemma view_order_body_world (e : Env) (w : World) :
  snd (view_order_body e w) = w.
Proof.
  unfold view_order_body.
  destruct (current_user e) as [u|] eqn:Hu; crank; [|reflexivity].
  destruct (existsb (String.eqb "association_table") (globals e)) eqn:Hg; crank;
    [|reflexivity].
  destruct (hd_error (Order_filter_by_user_id (User_id u) (session w)))
    as [o|] eqn:Ho; crank; [|reflexivity].
  rewrite view_order_loop.
  destruct (Item_join_placed_in _ (session w)) eqn:Hjoin; crank; [|reflexivity].
  destruct (validate_on_submit e); crank; reflexivity.
Qed.

Lemma customer_route {A} (body : M A) (e : Env) (w : World) :
  customer_only (login_required body) e w =
  match current_user e with
  | None => (Raise (AttributeError "AnonymousUserMixin" "type"), w)
  | Some u =>
      if String.eqb (User_type u) "Customer" then body e w
      else (Raise (HTTPException 403), w)
  end.
Proof.
  destruct (current_user e) as [u|] eqn:Hu; crank; [|reflexivity].
  destruct (String.eqb (User_type u) "Customer"); crank; reflexivity.
Qed.

Lemma view_order_world (e : Env) (w : World) : snd (view_order e w) = w.
Proof.
  unfold view_order. rewrite customer_route.
  destruct (current_user e) as [u|]; [|reflexivity].
  destruct (String.eqb (User_type u) "Customer"); [|reflexivity].
  apply view_order_body_world.
Qed.

(** [delete_order_item] never gets past [db.session.delete]. *)
Lemma delete_order_item_body_raises (item_id : Z) (e : Env) (w : World) :
  exists x, delete_order_item_body item_id e w = (Raise x, w) /\ x <> NotFound.
Proof.
  unfold delete_order_item_body, Item_query_get, bind_ident, db_session_delete_list.
  crank.
  destruct (current_user e) as [u|] eqn:Hu; crank;
    [|eexists; split; [reflexivity|discriminate]].
  destruct (existsb (String.eqb "association_table") (globals e)) eqn:Hg; crank;
    [|eexists; split; [reflexivity|discriminate]].
  destruct (find _ (items (session w))) as [it|]; crank;
    [|eexists; split; [reflexivity|discriminate]].
  destruct (hd_error _) as [o|]; crank;
    eexists; (split; [reflexivity|discriminate]).
Qed.

Lemma delete_order_item_raises (item_id : Z) (e : Env) (w : World) :
  exists x, delete_order_item item_id e w = (Raise x, w).
Proof.
  unfold delete_order_item. rewrite customer_route.
  destruct (current_user e) as [u|]; [|eexists; reflexivity].
  destruct (String.eqb (User_type u) "Customer"); [|eexists; reflexivity].
  destruct (delete_order_item_body_raises item_id e w) as [x [H _]].
  exists x. exact H.
Qed.

(** ** [customer_add_item] writes at most one row, an order *)

Lemma read_attrs_form (it : Item) (e : Env) (w : World) :
  read_attrs (Some it)
    ["name"; "img_url"; "price"; "sex"; "size"; "brand"; "type"; "weight"] e w
  = (Ok tt, w).
Proof. reflexivity. Qed.

Lemma Item_query_get_name (v : pyval) (e : Env) (w : World) :
  Item_query_get [Kw "name" v] e w = (Raise (TypeError "get" "name"), w).
Proof. reflexivity. Qed.

Lemma Item_query_get_key (z : Z) (e : Env) (w : World) :
  Item_query_get [Pos (VInt z)] e w =
  (Ok (find (fun it => Z.eqb z (Item_id it)) (items (session w))), w).
Proof. reflexivity. Qed.

(** The branch for an existing order fails whatever the session holds: the
    item lookup by keyword, and behind it the attribute of a query. *)
Lemma add_to_existing_order_raises (item_name : string) (e : Env) (w : World) :
  exists x, add_to_existing_order item_name e w = (Raise x, w).
Proof.
  unfold add_to_existing_order.
  destruct (current_user e) as [u|] eqn:Hu; crank; eexists; reflexivity.
Qed.

Lemma add_to_new_order_creates (item_name : string) (e : Env) (u : User) (w : World) :
  current_user e = Some u ->
  add_to_new_order item_name e w =
  (Raise (TypeError "get" "name"), world_with_order e u w).
Proof.
  intros Hu. unfold add_to_new_order, db_session_add_Order, db_session_commit.
  crank. reflexivity.
Qed.

Lemma hd_error_nil {A} (l : list A) : hd_error l = None -> l = [].
Proof. destruct l; [reflexivity|discriminate]. Qed.

Lemma customer_add_item_body_outcome (item_id : Z) (e : Env) (w : World) :
  add_outcome e w (customer_add_item_body item_id e w).
Proof.
  unfold customer_add_item_body.
  unfold bind at 1. rewrite Item_query_get_key.
  destruct (find _ (items (session w))) as [it|]; [|apply add_raises].
  unfold bind at 1. rewrite read_attrs_form.
  crank.
  destruct (validate_on_submit e) eqn:Hv; [|apply add_renders; exact Hv].
  destruct (current_user e) as [u|] eqn:Hu; crank; [|apply add_raises].
  destruct (hd_error (Order_filter_by_user_id (User_id u) (session w)))
    as [o|] eqn:Ho; crank.
  - unfold Item_query_get, bind_ident. crank. apply add_raises.
  - rewrite (add_to_new_order_creates _ e u w Hu).
    apply add_creates; [exact Hu|exact Hv|apply hd_error_nil; exact Ho].
Qed.

Lemma customer_add_item_outcome (item_id : Z) (e : Env) (w : World) :
  add_outcome e w (customer_add_item item_id e w).
Proof.
  unfold customer_add_item. rewrite customer_route.
  destruct (current_user e) as [u|]; [|apply add_raises].
  destruct (String.eqb (User_type u) "Customer"); [|apply add_raises].
  apply customer_add_item_body_outcome.
Qed.

(** ** What a request leaves in the database *)

Lemma serve_ViewOrder (e : Env) (d : Database) : snd (serve ViewOrder e d) = d.
Proof.
  unfold serve, run, handler.
  pose proof (view_order_world e (mkWorld d d [])) as H.
  destruct (view_order e (mkWorld d d [])) as [r w]. simpl in *. subst w.
  reflexivity.
Qed.

Lemma serve_RemoveItem (item_id : Z) (e : Env) (d : Database) :
  exists x, serve (RemoveItem item_id) e d = (Raise x, d).
Proof.
  unfold serve, run, handler.
  destruct (delete_order_item_raises item_id e (mkWorld d d [])) as [x H].
  exists x. rewrite H. reflexivity.
Qed.

Lemma serve_AddItem (item_id : Z) (e : Env) (d : Database) :
  add_served e d (serve (AddItem item_id) e d).
Proof.
  unfold serve, run, handler.
  destruct (customer_add_item_outcome item_id e (mkWorld d d [])) as [x|Hv|u Hu Hv Hnone];
    simpl.
  - apply served_unchanged.
  - apply served_unchanged.
  - apply (served_created e d u Hu Hv Hnone).
Qed.

Lemma serve_SignUp (e : Env) (d : Database) :
  items (snd (serve SignUp e d)) = items d /\
  orders (snd (serve SignUp e d)) = orders d /\
  placed_in (snd (serve SignUp e d)) = placed_in d.
Proof.
  unfold serve, run, handler, sign_up, db_session_add_User, db_session_add_Billing,
    db_session_commit, flash.
  crank.
  destruct (validate_on_submit e); crank; [|auto].
  simpl.
  destruct (is_some _); crank; [auto|].
  simpl.
  destruct (existsb _ (billings d)); crank; simpl; auto.
Qed.

(** Every request leaves the items and the line items as they were, and
    the orders either as they were or with one order more. *)
Lemma serve_frame (op : operation) (e : Env) (d : Database) :
  items (snd (serve op e d)) = items d /\
  placed_in (snd (serve op e d)) = placed_in d /\
  (orders (snd (serve op e d)) = orders d \/
   exists u, Order_filter_by_user_id (User_id u) d = [] /\
             orders (snd (serve op e d)) = orders d ++ [fresh_order e u d]).
Proof.
  destruct op as [|item_id|item_id|].
  - destruct (serve_SignUp e d) as [Hi [Ho Hp]]. auto.
  - destruct (serve_AddItem item_id e d) as [r|u Hu Hv Hnone]; simpl; auto.
    split; [reflexivity|]. split; [reflexivity|]. right. exists u. auto.
  - destruct (serve_RemoveItem item_id e d) as [x H]. rewrite H. simpl. auto.
  - rewrite serve_ViewOrder. auto.
Qed.

(** ** The catalog *)

(** C3: add item, remove item, view order and submit order (and sign-up too)
    leave the Item table as it was: whatever the request and the module
    namespace, no Item row is created, changed or deleted. *)
Theorem catalog_never_mutated (op : operation) (e : Env) (d : Database) :
  items (snd (serve op e d)) = items d.
Proof. apply serve_frame. Qed.

(** ** Fresh order numbers *)

Lemma max_key_bounds (keys : list Z) (k : Z) :
  In k keys -> exists m, max_key keys = Some m /\ k <= m.
Proof.
  induction keys as [|k' rest IH]; intros Hin; [destruct Hin|].
  simpl. destruct Hin as [->|Hin].
  - destruct (max_key rest) as [m|]; eexists; (split; [reflexivity|lia]).
  - destruct (IH Hin) as [m [-> Hle]]. eexists. split; [reflexivity|lia].
Qed.

Lemma next_key_fresh (keys : list Z) (k : Z) : In k keys -> k < next_key keys.
Proof.
  intros Hin. unfold next_key.
  destruct (max_key_bounds keys k Hin) as [m [-> Hle]]. lia.
Qed.

Lemma line_item_prices_frame (d d' : Database) (n : Z) :
  items d' = items d -> placed_in d' = placed_in d ->
  line_item_prices d' n = line_item_prices d n.
Proof.
  intros Hi Hp.
  unfold line_item_prices, line_items, PlacedIn_filter_by_order_num.
  rewrite Hi, Hp. reflexivity.
Qed.

Lemma filter_none {A} (f : A -> bool) (l : list A) :
  (forall x, In x l -> f x = false) -> filter f l = [].
Proof.
  induction l as [|x rest IH]; intros Hall; [reflexivity|].
  simpl. rewrite (Hall x (or_introl eq_refl)).
  apply IH. intros y Hy. apply Hall. right. exact Hy.
Qed.

Lemma filter_nil_all {A} (f : A -> bool) (l : list A) :
  filter f l = [] -> forall x, In x l -> f x = false.
Proof.
  induction l as [|y rest IH]; intros Hnil x Hin; [destruct Hin|].
  simpl in Hnil. destruct (f y) eqn:Hy; [discriminate|].
  destruct Hin as [<- | Hin]; [exact Hy|apply IH; assumption].
Qed.

(** An order number above every order has no line item, as long as line
    items name existing orders. *)
Lemma fresh_order_has_no_line_items (d : Database) :
  line_items_attached d ->
  line_items d (next_key (map Order_order_num (orders d))) = [].
Proof.
  intros Hatt. unfold line_items, PlacedIn_filter_by_order_num.
  apply filter_none. intros p Hp.
  destruct (Hatt p Hp) as [o [Ho Hnum]].
  apply Z.eqb_neq. rewrite <- Hnum.
  pose proof (next_key_fresh (map Order_order_num (orders d)) (Order_order_num o)
                (in_map Order_order_num _ _ Ho)).
  lia.
Qed.

(** ** Total consistency *)

(** Frame: no request changes a line item or a stored total, so totals
    that agree with the line items before a request agree after it, as long
    as line items name existing orders. *)
Lemma total_price_stays_consistent (op : operation) (e : Env) (d : Database) :
  line_items_attached d ->
  total_consistent d ->
  total_consistent (snd (serve op e d)).
Proof.
  intros Hatt Hcons o Ho.
  destruct (serve_frame op e d) as [Hi [Hp Horders]].
  rewrite (line_item_prices_frame d _ _ Hi Hp).
  destruct Horders as [Hsame | [u [_ Hnew]]].
  - rewrite Hsame in Ho. apply Hcons. exact Ho.
  - rewrite Hnew in Ho. apply in_app_or in Ho. destruct Ho as [Ho | [<- | []]].
    + apply Hcons. exact Ho.
    + unfold fresh_order, line_item_prices. simpl.
      rewrite (fresh_order_has_no_line_items d Hatt). reflexivity.
Qed.

Lemma cart_attached : line_items_attached cart.
Proof.
  intros p [<- | []]. eexists. split; [left; reflexivity|reflexivity].
Defined.

Lemma cart_consistent : total_consistent cart.
Proof. intros o [<- | []]. reflexivity. Defined.


(** ** One order per customer *)

Lemma serve_keeps_one_order (op : operation) (e : Env) (d : Database) :
  one_order_each d -> one_order_each (snd (serve op e d)).
Proof.
  intros Hone uid.
  destruct (serve_frame op e d) as [_ [_ [Hsame | [u [Hnone Hnew]]]]];
    unfold Order_filter_by_user_id in *.
  - rewrite Hsame. apply Hone.
  - rewrite Hnew, filter_app, length_app.
    cbn [filter fresh_order Order_user_id opt_Z_eqb].
    destruct (Z.eqb (User_id u) uid) eqn:Huid.
    + apply Z.eqb_eq in Huid. subst uid. rewrite Hnone. simpl. lia.
    + specialize (Hone uid). unfold Order_filter_by_user_id in Hone. simpl. lia.
Qed.

(** C6: after any sequence of sign-up, add-item, remove-item, view and
    submit requests, made by whichever users in whatever order, no user id
    has more than one Order row, provided that was so at the start (as it is
    in the empty database). *)
Theorem single_open_order (reqs : list (operation * Env)) (d : Database) :
  one_order_each d -> one_order_each (serve_all reqs d).
Proof.
  unfold serve_all. revert d.
  induction reqs as [|[op e] rest IH]; intros d Hone; simpl.
  - exact Hone.
  - apply IH. apply serve_keeps_one_order. exact Hone.
Qed.

Lemma shop_one_order : one_order_each shop.
Proof. intros uid. simpl. lia. Defined.

Lemma single_open_order_witness :
  one_order_each shop /\
  List.length
    (orders (serve_all [(AddItem 1, post_by_7 module_globals);
                        (AddItem 2, post_by_7 module_globals);
                        (ViewOrder, post_by_7 module_globals);
                        (AddItem 1, post_by_8)] shop)) = 2%nat /\
  one_order_each
    (serve_all [(AddItem 1, post_by_7 module_globals);
                (AddItem 2, post_by_7 module_globals);
                (ViewOrder, post_by_7 module_globals);
                (AddItem 1, post_by_8)] shop).
Proof.
  split; [exact shop_one_order|]. split; [reflexivity|].
  apply (single_open_order _ shop shop_one_order).
Defined.

(** ** Adding an item *)

Lemma customer_route_customer {A} (body : M A) (e : Env) (u : User) (w : World) :
  is_customer e u -> customer_only (login_required body) e w = body e w.
Proof.
  intros [Hu Htype]. rewrite customer_route, Hu, Htype. reflexivity.
Qed.

(** C10: a valid POST to customer_add_item by a customer who already has an
    order always ends in an exception and leaves every table, placed_in
    included, as it was: the TypeError of [Item.query.get(name=...)] when the
    item of the URL exists, the AttributeError of building the form when it
    does not.  The branch for an existing order (lines 625-665) could not
    complete either: run from any state it raises before it writes. *)
Theorem add_to_existing_order_never_completes
    (item_id : Z) (e : Env) (d : Database) (u : User) :
  is_customer e u ->
  validate_on_submit e = true ->
  Order_filter_by_user_id (User_id u) d <> [] ->
  serve (AddItem item_id) e d =
    (Raise (match find (fun it => Z.eqb item_id (Item_id it)) (items d) with
            | Some _ => TypeError "get" "name"
            | None => AttributeError "NoneType" "name"
            end), d)
  /\ forall item_name w, exists x, add_to_existing_order item_name e w = (Raise x, w).
Proof.
  intros Hcust Hv Hsome. split; [|intros; apply add_to_existing_order_raises].
  unfold serve, run, handler, customer_add_item.
  rewrite (customer_route_customer _ e u _ Hcust).
  destruct Hcust as [Hu _].
  unfold customer_add_item_body.
  unfold bind at 1. rewrite Item_query_get_key. cbn [session].
  destruct (find _ (items d)) as [it|]; [|reflexivity].
  unfold bind at 1. rewrite read_attrs_form.
  crank. cbn [session].
  destruct (Order_filter_by_user_id (User_id u) d) as [|o rest]; [contradiction|].
  cbn [hd_error]. rewrite Item_query_get_name. reflexivity.
Qed.

Lemma add_to_existing_order_never_completes_witness :
  is_customer (post_by_7 module_globals) customer_7 /\
  validate_on_submit (post_by_7 module_globals) = true /\
  Order_filter_by_user_id 7 cart <> [] /\
  serve (AddItem 2) (post_by_7 module_globals) cart =
    (Raise (TypeError "get" "name"), cart).
Proof.
  assert (Hc : is_customer (post_by_7 module_globals) customer_7)
    by (split; reflexivity).
  assert (Ho : Order_filter_by_user_id (User_id customer_7) cart <> [])
    by discriminate.
  split; [exact Hc|]. split; [reflexivity|]. split; [exact Ho|].
  exact (proj1 (add_to_existing_order_never_completes 2 (post_by_7 module_globals)
                  cart customer_7 Hc eq_refl Ho)).
Defined.

(** C4, evaluated where it fails: customer 7 has no order and posts item A
    (price 19.99).  The order is created and committed with total 0, date
    and shipping provider 1; then [Item.query.get(name=...)] at line 678
    raises.  No row of placed_in is written, the total stays 0, and the
    handler does not return an order. *)
Theorem first_add_stops_after_creating_order (G : list string) :
  serve (AddItem 1) (post_by_7 G) shop =
    (Raise (TypeError "get" "name"),
     mkDatabase [customer_7] [] [item_A; item_B]
       [mkOrder 1 (Some the_date) (Some 0%float) (Some 7) (Some 1)] [])
  /\ Item_price item_A <> 0%float.
Proof. split; [reflexivity|]. vm_compute. intros H. discriminate H. Qed.

(** ** Viewing and submitting *)

Lemma view_order_body_unbound (e : Env) (u : User) (w : World) :
  current_user e = Some u ->
  existsb (String.eqb "association_table") (globals e) = false ->
  view_order_body e w = (Raise (NameError "association_table"), w).
Proof. intros Hu Hg. unfold view_order_body. crank. reflexivity. Qed.


Lemma view_order_body_nonempty (e : Env) (u : User) (o : Order) (w : World) :
  current_user e = Some u ->
  existsb (String.eqb "association_table") (globals e) = true ->
  hd_error (Order_filter_by_user_id (User_id u) (session w)) = Some o ->
  Item_join_placed_in (fun p => Z.eqb (PlacedIn_order_num p) (Order_order_num o))
    (session w) <> [] ->
  view_order_body e w = (Raise (AttributeError "Item" "item_id"), w).
Proof.
  intros Hu Hg Ho Hrows. unfold view_order_body. crank.
  rewrite view_order_loop.
  destruct (Item_join_placed_in _ (session w)); [contradiction|reflexivity].
Qed.

(** C2, evaluated where it fails: customer 7 has order 1 holding item A and
    posts the order form.  In the module as written the handler stops at line
    725 on the unbound name [association_table]; were the name bound, it
    would stop at line 730 on [item_order.item_id].  Either way the row of
    placed_in for order 1 and the order itself are still there. *)
Theorem submit_leaves_line_items (G : list string) :
  (exists x, fst (serve ViewOrder (post_by_7 G) cart) = Raise x) /\
  fst (serve ViewOrder (post_by_7 module_globals) cart)
    = Raise (NameError "association_table") /\
  line_items (snd (serve ViewOrder (post_by_7 G) cart)) 1 = [mkPlacedIn 1 1] /\
  orders (snd (serve ViewOrder (post_by_7 G) cart)) = orders cart.
Proof.
  split; [|split; [reflexivity|rewrite serve_ViewOrder; split; reflexivity]].
  assert (Hc : is_customer (post_by_7 G) customer_7) by (split; reflexivity).
  unfold serve, run, handler, view_order.
  rewrite (customer_route_customer _ _ customer_7 _ Hc).
  destruct (existsb (String.eqb "association_table") G) eqn:Hg.
  - rewrite (view_order_body_nonempty (post_by_7 G) customer_7
               (mkOrder 1 (Some the_date) (Some 19.99%float) (Some 7) (Some 1))
               (mkWorld cart cart []) eq_refl Hg eq_refl);
      [eexists; reflexivity|discriminate].
  - rewrite (view_order_body_unbound (post_by_7 G) customer_7
               (mkWorld cart cart []) eq_refl Hg).
    eexists; reflexivity.
Qed.




(** ** Removing an item *)

Lemma delete_order_item_unbound (item_id : Z) (e : Env) (u : User) (w : World) :
  current_user e = Some u ->
  existsb (String.eqb "association_table") (globals e) = false ->
  delete_order_item_body item_id e w = (Raise (NameError "association_table"), w).
Proof.
  intros Hu Hg. unfold delete_order_item_body.
  unfold bind at 1. rewrite Item_query_get_key. crank. reflexivity.
Qed.

Lemma delete_order_item_bound
    (item_id : Z) (e : Env) (u : User) (it : Item) (o : Order) (w : World) :
  current_user e = Some u ->
  existsb (String.eqb "association_table") (globals e) = true ->
  find (fun i => Z.eqb item_id (Item_id i)) (items (session w)) = Some it ->
  hd_error (Order_filter_by_user_id (User_id u) (session w)) = Some o ->
  delete_order_item_body item_id e w = (Raise (UnmappedInstanceError "list"), w).
Proof.
  intros Hu Hg Hit Ho. unfold delete_order_item_body, db_session_delete_list.
  unfold bind at 1. rewrite Item_query_get_key. crank. reflexivity.
Qed.

(** C5, evaluated where it fails: customer 7 has order 1 holding item A and
    asks to remove item B, which is not in it.  The handler raises NameError
    at line 769 (with [association_table] bound, UnmappedInstanceError at
    line 773, where [db.session.delete] is handed the list [.all()]
    returned), never NotFound; and it ends the same way for item A, which is
    in the order, so the failure is not a rejection of the absent item. *)
Theorem remove_fails_alike_for_absent_and_present (G : list string) :
  ~ In (mkPlacedIn 2 1) (placed_in cart) /\
  In (mkPlacedIn 1 1) (placed_in cart) /\
  serve (RemoveItem 2) (get_by_7 module_globals) cart
    = (Raise (NameError "association_table"), cart) /\
  serve (RemoveItem 2) (get_by_7 ("association_table" :: G)) cart
    = (Raise (UnmappedInstanceError "list"), cart) /\
  (exists x, serve (RemoveItem 2) (get_by_7 G) cart = (Raise x, cart) /\ x <> NotFound) /\
  serve (RemoveItem 1) (get_by_7 G) cart = serve (RemoveItem 2) (get_by_7 G) cart.
Proof.
  assert (Hc : forall G', is_customer (get_by_7 G') customer_7)
    by (intros G'; split; reflexivity).
  assert (Hrun : forall k it,
            find (fun i => Z.eqb k (Item_id i)) (items cart) = Some it ->
            serve (RemoveItem k) (get_by_7 G) cart =
            (Raise (if existsb (String.eqb "association_table") G
                    then UnmappedInstanceError "list"
                    else NameError "association_table"), cart)).
  { intros k it Hit. unfold serve, run, handler, delete_order_item.
    rewrite (customer_route_customer _ _ customer_7 _ (Hc G)).
    destruct (existsb (String.eqb "association_table") G) eqn:Hg.
    - rewrite (delete_order_item_bound k (get_by_7 G) customer_7 it
                 (mkOrder 1 (Some the_date) (Some 19.99%float) (Some 7) (Some 1))
                 (mkWorld cart cart []) eq_refl Hg Hit eq_refl).
      reflexivity.
    - rewrite (delete_order_item_unbound k (get_by_7 G) customer_7
                 (mkWorld cart cart []) eq_refl Hg).
      reflexivity. }
  split; [intros [H|[]]; discriminate H|].
  split; [left; reflexivity|].
  split; [reflexivity|]. split; [reflexivity|].
  split.
  - rewrite (Hrun 2 item_B eq_refl). eexists. split; [reflexivity|].
    destruct (existsb (String.eqb "association_table") G); discriminate.
  - rewrite (Hrun 1 item_A eq_refl), (Hrun 2 item_B eq_refl). reflexivity.
Qed.

(** ** Pricing arithmetic *)






(** ** Importing the module *)

Lemma eval_reads_unbound (db_has : string -> bool) (ns : Namespace)
    (reads : list (Z * ref)) (line : Z) (n : string) :
  is_bound n ns = false ->
  In (line, Name n) reads ->
  exists l x, eval_reads db_has ns reads = Some (l, x).
Proof.
  intros Hn. induction reads as [|[l r] rest IH]; intros Hin; [destruct Hin|].
  destruct Hin as [Heq | Hin].
  - injection Heq as -> ->. simpl. rewrite Hn. eauto.
  - simpl. destruct r as [m | a].
    + destruct (is_bound m ns); eauto.
    + destruct (is_bound "db" ns); [destruct (db_has a)|]; eauto.
Qed.

(** A read of a name that nothing before it binds stops the import, at the
    latest there, with the routes as they were. *)
Lemma exec_unbound (db_has : string -> bool) (n : string) (s : stmt)
    (post : list stmt) (line : Z) :
  In (line, Name n) (stmt_reads s) ->
  forall (pre : list stmt) (ns : Namespace),
  is_bound n ns = false ->
  forallb (harmless n) pre = true ->
  exists l x ns', exec db_has (pre ++ s :: post) ns = Crashed l x ns'
                  /\ routes ns' = routes ns.
Proof.
  intros Hread. induction pre as [|s0 pre IH]; intros ns Hn Hpre.
  - simpl. unfold exec_stmt.
    destruct (eval_reads_unbound db_has ns _ line n Hn Hread) as [l [x ->]].
    eauto.
  - simpl in Hpre. apply andb_true_iff in Hpre. destruct Hpre as [Hs0 Hpre].
    apply andb_true_iff in Hs0. destruct Hs0 as [Hbinds Hroute].
    simpl. unfold exec_stmt.
    destruct (eval_reads db_has ns (stmt_reads s0)) as [[l x]|]; [eauto|].
    destruct (stmt_route s0); [discriminate|].
    destruct (IH (mkNamespace (bound ns ++ stmt_binds s0) (routes ns ++ []))) as
      [l [x [ns' [Hexec Hroutes]]]].
    + unfold is_bound in *. simpl. rewrite existsb_app, Hn.
      apply negb_true_iff in Hbinds. rewrite Hbinds. reflexivity.
    + exact Hpre.
    + exists l, x, ns'. split; [exact Hexec|].
      rewrite Hroutes. simpl. apply app_nil_r.
Qed.

(** The class statement of [Item] (line 200), what runs before it and what
    would run after it. *)
Lemma main2_around_Item :
  main2 = firstn 27 main2 ++ nth 27 main2 (FromImport []) :: skipn 28 main2.
Proof. vm_compute. reflexivity. Qed.

Lemma Item_reads_association_table :
  In (223, Name "association_table") (stmt_reads (nth 27 main2 (FromImport []))).
Proof. vm_compute. tauto. Qed.

Lemma Order_reads_association_table :
  In (274, Name "association_table") (stmt_reads (nth 29 main2 (FromImport []))).
Proof. vm_compute. tauto. Qed.

Lemma nothing_binds_association_table :
  forallb (harmless "association_table") (firstn 27 main2) = true.
Proof. vm_compute. reflexivity. Qed.

(** C9: importing main2 fails.  No statement of the module binds
    association_table; the class statements of Item (line 223) and Order
    (line 274) read it.  With the attributes SQLAlchemy has, the import stops
    earlier still, in PlacedIn at line 74, on db.ForiegnKey.  Whatever
    attributes db answers to, the import stops before any route is
    registered, so none of the endpoints of the order subsystem exists. *)
Theorem module_cannot_be_loaded :
  existsb (String.eqb "association_table") module_globals = false /\
  (exists s, In s main2 /\ stmt_binds s = ["Item"] /\
             In (223, Name "association_table") (stmt_reads s)) /\
  (exists s, In s main2 /\ stmt_binds s = ["Order"] /\
             In (274, Name "association_table") (stmt_reads s)) /\
  (exists ns, load_module flask_sqlalchemy_names
              = Crashed 74 (AttributeError "SQLAlchemy" "ForiegnKey") ns) /\
  (exists ns, load_module (fun _ => true)
              = Crashed 223 (NameError "association_table") ns) /\
  (forall db_has, exists line x ns,
      load_module db_has = Crashed line x ns /\
      routes ns = [] /\
      forall ep, In ep order_endpoints -> ~ In ep (routes ns)).
Proof.
  split; [vm_compute; reflexivity|].
  split; [exists (nth 27 main2 (FromImport [])); split; [|split];
            [apply nth_In; vm_compute; lia | reflexivity
            | exact Item_reads_association_table]|].
  split; [exists (nth 29 main2 (FromImport [])); split; [|split];
            [apply nth_In; vm_compute; lia | reflexivity
            | exact Order_reads_association_table]|].
  split; [eexists; vm_compute; reflexivity|].
  split; [eexists; vm_compute; reflexivity|].
  intros db_has. unfold load_module. rewrite main2_around_Item.
  destruct (exec_unbound db_has "association_table" (nth 27 main2 (FromImport []))
              (skipn 28 main2) 223 Item_reads_association_table
              (firstn 27 main2) fresh_module eq_refl nothing_binds_association_table)
    as [l [x [ns' [Hexec Hroutes]]]].
  exists l, x, ns'. split; [exact Hexec|]. split; [exact Hroutes|].
  rewrite Hroutes. intros ep _ [].
Qed.

(** * Further properties: the owner's handlers, billing, login and home *)

(** ** The role decorators *)

Lemma admin_route {A} (body : M A) (e : Env) (w : World) :
  admin_only (login_required body) e w =
  match current_user e with
  | None => (Raise (AttributeError "AnonymousUserMixin" "type"), w)
  | Some u =>
      if String.eqb (User_type u) "Owner" then body e w
      else (Raise (HTTPException 403), w)
  end.
Proof.
  unfold admin_only.
  destruct (current_user e) as [u|] eqn:Hu; crank; [|reflexivity].
  destruct (String.eqb (User_type u) "Owner"); crank; reflexivity.
Qed.

Lemma admin_route_owner {A} (body : M A) (e : Env) (u : User) (w : World) :
  is_owner e u -> admin_only (login_required body) e w = body e w.
Proof. intros [Hu Htype]. rewrite admin_route, Hu, Htype. reflexivity. Qed.

Lemma run_raise {A} (h : M A) (e : Env) (d : Database) (x : exn) :
  h e (mkWorld d d []) = (Raise x, mkWorld d d []) -> run h e d = (Raise x, d).
Proof. intros H. unfold run. rewrite H. reflexivity. Qed.

(** X1: a logged-in user whose type is not "Owner" gets 403 from
    owner_add_item, edit_item and delete_item, and a logged-in user whose
    type is not "Customer" gets 403 from customer_add_item,
    delete_order_item, view_order and edit_billing; in every case nothing is
    written. *)
Theorem role_gate (e : Env) (d : Database) (u : User) :
  current_user e = Some u ->
  (User_type u <> "Owner" ->
     (forall f, run (owner_add_item f) e d = (Raise (HTTPException 403), d)) /\
     (forall i f, run (edit_item i f) e d = (Raise (HTTPException 403), d)) /\
     (forall i, run (delete_item i) e d = (Raise (HTTPException 403), d))) /\
  (User_type u <> "Customer" ->
     (forall i, serve (AddItem i) e d = (Raise (HTTPException 403), d)) /\
     (forall i, serve (RemoveItem i) e d = (Raise (HTTPException 403), d)) /\
     serve ViewOrder e d = (Raise (HTTPException 403), d) /\
     (forall v f, run (edit_billing v f) e d = (Raise (HTTPException 403), d))).
Proof.
  intros Hu. split; intros Htype; apply String.eqb_neq in Htype.
  - repeat split; intros; apply run_raise;
      unfold owner_add_item, edit_item, delete_item;
      rewrite admin_route, Hu, Htype; reflexivity.
  - repeat split; intros; apply run_raise;
      unfold handler, customer_add_item, delete_order_item, view_order, edit_billing;
      rewrite customer_route, Hu, Htype; reflexivity.
Qed.

Lemma role_gate_witness :
  current_user (get_by_7 module_globals) = Some customer_7 /\
  is_post (get_by_7 module_globals) = false /\
  User_type customer_7 <> "Owner" /\
  run (delete_item 1) (get_by_7 module_globals) cart
    = (Raise (HTTPException 403), cart) /\
  run (edit_item 1 fields_C) (get_by_7 module_globals) cart
    = (Raise (HTTPException 403), cart).
Proof.
  assert (Hneq : User_type customer_7 <> "Owner") by discriminate.
  split; [reflexivity|]. split; [reflexivity|]. split; [exact Hneq|].
  pose (H := proj1 (role_gate (get_by_7 module_globals) cart customer_7 eq_refl) Hneq).
  split.
  - exact (proj2 (proj2 H) 1).
  - exact (proj1 (proj2 H) 1 fields_C).
Defined.

(** X2: the role decorator runs before login_required, so a request without
    a logged-in user to any role-protected route ends in the AttributeError
    of [current_user.type], not in the 401 of login_required, and writes
    nothing; only logout answers 401. *)
Theorem anonymous_request (e : Env) (d : Database) :
  current_user e = None ->
  (forall f, run (owner_add_item f) e d
             = (Raise (AttributeError "AnonymousUserMixin" "type"), d)) /\
  (forall i f, run (edit_item i f) e d
               = (Raise (AttributeError "AnonymousUserMixin" "type"), d)) /\
  (forall i, run (delete_item i) e d
             = (Raise (AttributeError "AnonymousUserMixin" "type"), d)) /\
  (forall op, op <> SignUp ->
              serve op e d = (Raise (AttributeError "AnonymousUserMixin" "type"), d)) /\
  (forall v f, run (edit_billing v f) e d
               = (Raise (AttributeError "AnonymousUserMixin" "type"), d)) /\
  run logout e d = (Raise (HTTPException 401), d).
Proof.
  intros Hu.
  repeat split; intros; try (apply run_raise).
  1-3: unfold owner_add_item, edit_item, delete_item;
       rewrite admin_route, Hu; reflexivity.
  - destruct op; [contradiction| | |];
      unfold handler, customer_add_item, delete_order_item, view_order;
      rewrite customer_route, Hu; reflexivity.
  - unfold edit_billing. rewrite customer_route, Hu. reflexivity.
  - unfold logout. crank. reflexivity.
Qed.

Lemma anonymous_request_witness :
  current_user anonymous_get = None /\
  serve ViewOrder anonymous_get cart
    = (Raise (AttributeError "AnonymousUserMixin" "type"), cart) /\
  run logout anonymous_get cart = (Raise (HTTPException 401), cart).
Proof.
  split; [reflexivity|].
  pose (H := anonymous_request anonymous_get cart eq_refl).
  split.
  - apply (proj1 (proj2 (proj2 (proj2 H))) ViewOrder). discriminate.
  - exact (proj2 (proj2 (proj2 (proj2 (proj2 H))))).
Defined.

(** ** [owner_add_item] *)

Lemma owner_add_item_run (f : ItemFields) (e : Env) (d : Database) (u : User) :
  is_owner e u ->
  validate_on_submit e = true ->
  run (owner_add_item f) e d =
  match Item_filter_by_name (form_name e) d with
  | _ :: _ => (Ok (Redirect "owner_add_item"), d)
  | [] => (Ok (Redirect "home"), set_items d (items d ++ [new_item e u f d]))
  end.
Proof.
  intros Howner Hv. unfold run, owner_add_item.
  rewrite (admin_route_owner _ e u _ Howner). destruct Howner as [Hu _].
  unfold owner_add_item_body, db_session_add_Item, db_session_commit, flash.
  crank. cbn [session].
  destruct (Item_filter_by_name (form_name e) d); cbn [hd_error is_some]; crank;
    reflexivity.
Qed.

(** What any request to [owner_add_item] leaves behind. *)
Lemma owner_add_item_after (f : ItemFields) (e : Env) (d : Database) :
  after (OwnerAddItem f) e d = d \/
  exists u, Item_filter_by_name (form_name e) d = [] /\
            after (OwnerAddItem f) e d = set_items d (items d ++ [new_item e u f d]).
Proof.
  unfold after.
  destruct (current_user e) as [u|] eqn:Hu.
  - destruct (String.eqb (User_type u) "Owner") eqn:Htype.
    + apply String.eqb_eq in Htype.
      destruct (validate_on_submit e) eqn:Hv.
      * rewrite (owner_add_item_run f e d u (conj Hu Htype) Hv).
        destruct (Item_filter_by_name (form_name e) d) eqn:Hname; [|left; reflexivity].
        right. exists u. split; reflexivity.
      * left. unfold run, owner_add_item.
        rewrite (admin_route_owner _ e u _ (conj Hu Htype)).
        unfold owner_add_item_body. crank. reflexivity.
    + left. unfold run, owner_add_item. rewrite admin_route, Hu, Htype.
      reflexivity.
  - left. unfold run, owner_add_item. rewrite admin_route, Hu. reflexivity.
Qed.

Lemma name_not_taken (name : string) (d : Database) :
  Item_filter_by_name name d = [] -> ~ In name (map Item_name (items d)).
Proof.
  intros Hnil Hin. apply in_map_iff in Hin. destruct Hin as [it [Hname Hin]].
  pose proof (filter_nil_all _ _ Hnil it Hin) as Hfalse. simpl in Hfalse.
  apply String.eqb_neq in Hfalse. contradiction.
Qed.

Lemma NoDup_snoc {A} (l : list A) (x : A) : NoDup l -> ~ In x l -> NoDup (l ++ [x]).
Proof.
  intros Hl Hx. induction Hl as [|y l Hy Hl IH]; simpl.
  - constructor; [intros []|constructor].
  - constructor.
    + intros Hin. apply in_app_or in Hin. destruct Hin as [Hin | [<- | []]].
      * contradiction.
      * apply Hx. left. reflexivity.
    + apply IH. intros Hin. apply Hx. right. exact Hin.
Qed.

(** X3: whoever sends it, a request to owner_add_item keeps item names
    unique: the row is stored only when no stored item has the submitted
    name, and a request naming a stored item leaves the database as it was. *)
Theorem owner_add_item_keeps_names_unique (f : ItemFields) (e : Env) (d : Database) :
  NoDup (map Item_name (items d)) ->
  NoDup (map Item_name (items (after (OwnerAddItem f) e d))) /\
  (Item_filter_by_name (form_name e) d <> [] -> after (OwnerAddItem f) e d = d).
Proof.
  intros Hnodup.
  destruct (owner_add_item_after f e d) as [-> | [u [Hfree ->]]].
  - split; [exact Hnodup|reflexivity].
  - split; [|intros Htaken; contradiction].
    cbn [items set_items]. rewrite map_app. cbn [map new_item Item_name].
    apply NoDup_snoc; [exact Hnodup|apply name_not_taken; exact Hfree].
Qed.

Lemma shop_names_unique : NoDup (map Item_name (items shop)).
Proof.
  repeat constructor; simpl; intros H;
    repeat (destruct H as [H|H]; [discriminate H|]); exact H.
Defined.

Lemma owner_add_item_keeps_names_unique_witness :
  NoDup (map Item_name (items shop)) /\
  map Item_name (items (after (OwnerAddItem fields_C) (post_by_owner "C") shop))
    = ["A"; "B"; "C"] /\
  NoDup (map Item_name (items (after (OwnerAddItem fields_C) (post_by_owner "C") shop))).
Proof.
  split; [exact shop_names_unique|]. split; [reflexivity|].
  exact (proj1 (owner_add_item_keeps_names_unique fields_C (post_by_owner "C") shop
                  shop_names_unique)).
Defined.

(** ** Looking items up *)

Lemma run_Item_query_get (k : Z) (e : Env) (d : Database) :
  run (Item_query_get [Pos (VInt k)]) e d =
  (Ok (find (fun it => Z.eqb k (Item_id it)) (items d)), d).
Proof. reflexivity. Qed.

Lemma find_all_false {A} (f : A -> bool) (l : list A) :
  (forall x, In x l -> f x = false) -> find f l = None.
Proof.
  induction l as [|y rest IH]; intros Hall; [reflexivity|].
  simpl. rewrite (Hall y (or_introl eq_refl)).
  apply IH. intros x Hx. apply Hall. right. exact Hx.
Qed.

Lemma find_snoc {A} (f : A -> bool) (l : list A) (x : A) :
  find f (l ++ [x]) =
  match find f l with
  | Some y => Some y
  | None => if f x then Some x else None
  end.
Proof.
  induction l as [|y rest IH]; simpl; [reflexivity|].
  destruct (f y); [reflexivity|exact IH].
Qed.

Lemma fresh_item_id_unused (d : Database) :
  find (fun it => Z.eqb (next_key (map Item_id (items d))) (Item_id it)) (items d) = None.
Proof.
  apply find_all_false. intros it Hin. apply Z.eqb_neq.
  pose proof (next_key_fresh (map Item_id (items d)) (Item_id it)
                (in_map Item_id _ _ Hin)).
  lia.
Qed.

(** X4: when an owner posts a valid form with a name no stored item has,
    owner_add_item redirects to home, and afterwards Item.query.get of the new
    id returns the submitted fields with the owner's id and inventory 1, while
    Item.query.get of every other id returns what it returned before. *)
Theorem owner_add_item_then_get
    (f : ItemFields) (e e' : Env) (d : Database) (u : User) :
  is_owner e u ->
  validate_on_submit e = true ->
  Item_filter_by_name (form_name e) d = [] ->
  fst (run (owner_add_item f) e d) = Ok (Redirect "home") /\
  fst (run (Item_query_get [Pos (VInt (Item_id (new_item e u f d)))]) e'
         (after (OwnerAddItem f) e d)) = Ok (Some (new_item e u f d)) /\
  forall k, k <> Item_id (new_item e u f d) ->
    fst (run (Item_query_get [Pos (VInt k)]) e' (after (OwnerAddItem f) e d)) =
    fst (run (Item_query_get [Pos (VInt k)]) e' d).
Proof.
  intros Howner Hv Hfree. unfold after.
  rewrite (owner_add_item_run f e d u Howner Hv), Hfree.
  split; [reflexivity|].
  rewrite !run_Item_query_get. cbn [fst snd items set_items].
  split.
  - rewrite find_snoc. cbn [new_item Item_id].
    rewrite fresh_item_id_unused, Z.eqb_refl. reflexivity.
  - intros k Hk. rewrite !run_Item_query_get. cbn [fst items set_items].
    rewrite find_snoc.
    destruct (find _ (items d)); [reflexivity|].
    apply Z.eqb_neq in Hk. rewrite Hk. reflexivity.
Qed.

Lemma owner_add_item_then_get_witness :
  is_owner (post_by_owner "C") owner_2 /\
  validate_on_submit (post_by_owner "C") = true /\
  Item_filter_by_name "C" shop = [] /\
  fst (run (Item_query_get [Pos (VInt 3)]) anonymous_get
         (after (OwnerAddItem fields_C) (post_by_owner "C") shop))
    = Ok (Some (mkItem 3 "c.png" "C" 25%float None None None (Some "Shirt") None None
                  (Some 2) (Some 1))).
Proof.
  assert (Ho : is_owner (post_by_owner "C") owner_2) by (split; reflexivity).
  split; [exact Ho|]. split; [reflexivity|]. split; [reflexivity|].
  exact (proj1 (proj2 (owner_add_item_then_get fields_C (post_by_owner "C")
                         anonymous_get shop owner_2 Ho eq_refl eq_refl))).
Defined.

(** ** [edit_item] and [delete_item] *)

Lemma read_attrs_edit_form (it : Item) (e : Env) (w : World) :
  read_attrs (Some it)
    ["name"; "img_url"; "price"; "sex"; "size"; "brand"; "type"; "weight"; "color"]
    e w
  = (Ok tt, w).
Proof. reflexivity. Qed.

Lemma found_item_id (k : Z) (its : list Item) (it : Item) :
  find (fun i => Z.eqb k (Item_id i)) its = Some it -> Item_id it = k /\ In it its.
Proof.
  intros H. apply find_some in H. destruct H as [Hin Heq].
  apply Z.eqb_eq in Heq. split; [symmetry; exact Heq|exact Hin].
Qed.

Lemma edit_item_run (k : Z) (f : ItemFields) (e : Env) (d : Database) (u : User) :
  is_owner e u ->
  run (edit_item k f) e d =
  match find (fun i => Z.eqb k (Item_id i)) (items d) with
  | None => (Raise (AttributeError "NoneType" "name"), d)
  | Some _ =>
      if validate_on_submit e
      then (Ok (Redirect "home"), set_items d (edit_rows k (form_name e) f (items d)))
      else (Ok (Render "add-item.html" no_context), d)
  end.
Proof.
  intros Howner. unfold run, edit_item.
  rewrite (admin_route_owner _ e u _ Howner).
  unfold edit_item_body.
  unfold bind at 1. rewrite Item_query_get_key. cbn [session].
  destruct (find _ (items d)) as [it|] eqn:Hfind; [|reflexivity].
  destruct (found_item_id _ _ _ Hfind) as [Hid _].
  unfold bind at 1. rewrite read_attrs_edit_form.
  unfold Item_update, db_session_commit. crank.
  destruct (validate_on_submit e); crank; reflexivity.
Qed.

Lemma delete_item_run (k : Z) (e : Env) (d : Database) (u : User) :
  is_owner e u ->
  run (delete_item k) e d =
  match find (fun i => Z.eqb k (Item_id i)) (items d) with
  | None => (Raise (UnmappedInstanceError "NoneType"), d)
  | Some _ => (Ok (Redirect "home"), without_item k d)
  end.
Proof.
  intros Howner. unfold run, delete_item.
  rewrite (admin_route_owner _ e u _ Howner).
  unfold delete_item_body.
  unfold bind at 1. rewrite Item_query_get_key. cbn [session].
  destruct (find _ (items d)) as [it|] eqn:Hfind; [|reflexivity].
  destruct (found_item_id _ _ _ Hfind) as [Hid _].
  unfold db_session_delete, db_session_delete_Item, db_session_commit. crank.
  reflexivity.
Qed.

(** X5: for an owner, edit_item of an id that no stored item has ends in
    the AttributeError of reading [item_to_edit.name], and delete_item of such
    an id in the UnmappedInstanceError of [db.session.delete(None)]; neither
    writes anything. *)
Theorem missing_item_raises (k : Z) (f : ItemFields) (e : Env) (d : Database) (u : User) :
  is_owner e u ->
  (forall it, In it (items d) -> Item_id it <> k) ->
  run (edit_item k f) e d = (Raise (AttributeError "NoneType" "name"), d) /\
  run (delete_item k) e d = (Raise (UnmappedInstanceError "NoneType"), d).
Proof.
  intros Howner Hmissing.
  assert (Hfind : find (fun i => Z.eqb k (Item_id i)) (items d) = None).
  { apply find_all_false. intros it Hin. apply Z.eqb_neq.
    intros Heq. apply (Hmissing it Hin). symmetry. exact Heq. }
  rewrite (edit_item_run k f e d u Howner), (delete_item_run k e d u Howner), Hfind.
  split; reflexivity.
Qed.

Lemma missing_item_raises_witness :
  is_owner get_by_owner owner_2 /\
  is_post get_by_owner = false /\
  (forall it, In it (items shop) -> Item_id it <> 9) /\
  run (edit_item 9 fields_C) get_by_owner shop
    = (Raise (AttributeError "NoneType" "name"), shop) /\
  run (delete_item 9) get_by_owner shop
    = (Raise (UnmappedInstanceError "NoneType"), shop).
Proof.
  assert (Ho : is_owner get_by_owner owner_2) by (split; reflexivity).
  assert (Hm : forall it, In it (items shop) -> Item_id it <> 9).
  { intros it [<- | [<- | []]]; discriminate. }
  split; [exact Ho|]. split; [reflexivity|]. split; [exact Hm|].
  exact (missing_item_raises 9 fields_C get_by_owner shop owner_2 Ho Hm).
Defined.

Lemma Item_assign_id (it : Item) (name : string) (f : ItemFields) :
  Item_id (Item_assign it name f) = Item_id it.
Proof. reflexivity. Qed.

Lemma find_edit_rows (j k : Z) (name : string) (f : ItemFields) (its : list Item) :
  find (fun i => Z.eqb j (Item_id i)) (edit_rows k name f its) =
  match find (fun i => Z.eqb j (Item_id i)) its with
  | Some x => Some (if Z.eqb (Item_id x) k then Item_assign x name f else x)
  | None => None
  end.
Proof.
  induction its as [|x rest IH]; [reflexivity|].
  cbn [edit_rows map find].
  destruct (Z.eqb (Item_id x) k) eqn:Hk; rewrite ?Item_assign_id;
    (destruct (Z.eqb j (Item_id x)); [rewrite Hk; reflexivity|exact IH]).
Qed.

(** X6: when an owner posts a valid form to edit_item for a stored id,
    Item.query.get of that id afterwards returns the row with the submitted
    fields and its old id, user_id and inventory_id; Item.query.get of every
    other id returns what it did; no id appears or disappears.  The owner who
    edits need not be the one who stored the item. *)
Theorem edit_item_changes_one_row
    (k : Z) (f : ItemFields) (e e' : Env) (d : Database) (u : User) (it : Item) :
  is_owner e u ->
  validate_on_submit e = true ->
  find (fun i => Z.eqb k (Item_id i)) (items d) = Some it ->
  fst (run (Item_query_get [Pos (VInt k)]) e' (after (EditItem k f) e d))
    = Ok (Some (Item_assign it (form_name e) f)) /\
  (forall j, j <> k ->
     fst (run (Item_query_get [Pos (VInt j)]) e' (after (EditItem k f) e d)) =
     fst (run (Item_query_get [Pos (VInt j)]) e' d)) /\
  map Item_id (items (after (EditItem k f) e d)) = map Item_id (items d).
Proof.
  intros Howner Hv Hfind. unfold after.
  rewrite (edit_item_run k f e d u Howner), Hfind, Hv.
  cbn [snd]. destruct (found_item_id _ _ _ Hfind) as [Hid _].
  split; [|split].
  - rewrite run_Item_query_get. cbn [fst items set_items].
    rewrite find_edit_rows, Hfind, Hid, Z.eqb_refl. reflexivity.
  - intros j Hj. rewrite !run_Item_query_get. cbn [fst items set_items].
    rewrite find_edit_rows.
    destruct (find (fun i => Z.eqb j (Item_id i)) (items d)) as [x|] eqn:Hx;
      [|reflexivity].
    destruct (found_item_id _ _ _ Hx) as [Hxid _].
    rewrite Hxid. apply Z.eqb_neq in Hj. rewrite Hj. reflexivity.
  - cbn [items set_items]. unfold edit_rows. rewrite map_map.
    apply map_ext. intros x. destruct (Z.eqb (Item_id x) k); reflexivity.
Qed.

Lemma edit_item_changes_one_row_witness :
  is_owner (post_by_foreign_owner "A2") foreign_owner /\
  Item_user_id item_A <> Some (User_id foreign_owner) /\
  fst (run (Item_query_get [Pos (VInt 1)]) anonymous_get
         (after (EditItem 1 fields_A') (post_by_foreign_owner "A2") shop))
    = Ok (Some (mkItem 1 "a.png" "A2" 25%float None None None None None None
                  (Some 2) (Some 1))).
Proof.
  assert (Ho : is_owner (post_by_foreign_owner "A2") foreign_owner)
    by (split; reflexivity).
  split; [exact Ho|]. split; [discriminate|].
  exact (proj1 (edit_item_changes_one_row 1 fields_A' (post_by_foreign_owner "A2")
                  anonymous_get shop foreign_owner item_A Ho eq_refl eq_refl)).
Defined.

Lemma NoDup_map_injective {A B} (g : A -> B) (l : list A) (a b : A) :
  NoDup (map g l) -> In a l -> In b l -> g a = g b -> a = b.
Proof.
  induction l as [|x rest IH]; intros Hnd Ha Hb Hg; [destruct Ha|].
  simpl in Hnd. inversion Hnd as [|y ys Hnotin Hrest]; subst.
  destruct Ha as [-> | Ha]; destruct Hb as [-> | Hb].
  - reflexivity.
  - exfalso. apply Hnotin. rewrite Hg. apply in_map. exact Hb.
  - exfalso. apply Hnotin. rewrite <- Hg. apply in_map. exact Ha.
  - apply IH; assumption.
Qed.

(** X7: edit_item does not check the submitted name against the stored ones
    (the check is commented out at lines 538-544): when an owner posts, for a
    stored id, the name of another stored item, the edit is stored and two
    items carry the same name, which owner_add_item would have refused. *)
Theorem edit_item_duplicates_names
    (k : Z) (f : ItemFields) (e : Env) (d : Database) (u : User) (it other : Item) :
  is_owner e u ->
  validate_on_submit e = true ->
  find (fun i => Z.eqb k (Item_id i)) (items d) = Some it ->
  In other (items d) ->
  Item_id other <> k ->
  Item_name other = form_name e ->
  fst (run (edit_item k f) e d) = Ok (Redirect "home") /\
  ~ NoDup (map Item_name (items (after (EditItem k f) e d))).
Proof.
  intros Howner Hv Hfind Hother Hneq Hname. unfold after.
  rewrite (edit_item_run k f e d u Howner), Hfind, Hv.
  split; [reflexivity|].
  cbn [snd items set_items]. intros Hnd.
  destruct (found_item_id _ _ _ Hfind) as [Hid Hin].
  assert (Hin1 : In (Item_assign it (form_name e) f)
                    (edit_rows k (form_name e) f (items d))).
  { unfold edit_rows. apply in_map_iff. exists it.
    rewrite Hid, Z.eqb_refl. split; [reflexivity|exact Hin]. }
  assert (Hin2 : In other (edit_rows k (form_name e) f (items d))).
  { unfold edit_rows. apply in_map_iff. exists other.
    apply Z.eqb_neq in Hneq. rewrite Hneq. split; [reflexivity|exact Hother]. }
  pose proof (NoDup_map_injective Item_name _ _ _ Hnd Hin1 Hin2) as Heq.
  cbn [Item_assign Item_name] in Heq. specialize (Heq (eq_sym Hname)).
  apply Hneq. rewrite <- Heq. cbn [Item_assign Item_id]. exact Hid.
Qed.

Lemma edit_item_duplicates_names_witness :
  is_owner (post_by_owner "B") owner_2 /\
  NoDup (map Item_name (items shop)) /\
  map Item_name (items (after (EditItem 1 fields_A') (post_by_owner "B") shop))
    = ["B"; "B"] /\
  ~ NoDup (map Item_name (items (after (EditItem 1 fields_A') (post_by_owner "B") shop))).
Proof.
  assert (Ho : is_owner (post_by_owner "B") owner_2) by (split; reflexivity).
  split; [exact Ho|]. split; [exact shop_names_unique|]. split; [reflexivity|].
  refine (proj2 (edit_item_duplicates_names 1 fields_A' (post_by_owner "B") shop
                   owner_2 item_A item_B Ho eq_refl eq_refl _ _ eq_refl)).
  - right. left. reflexivity.
  - discriminate.
Defined.

Lemma find_without (j k : Z) (its : list Item) :
  find (fun i => Z.eqb j (Item_id i))
       (filter (fun i => negb (Z.eqb (Item_id i) k)) its) =
  if Z.eqb j k then None else find (fun i => Z.eqb j (Item_id i)) its.
Proof.
  induction its as [|x rest IH]; [destruct (Z.eqb j k); reflexivity|].
  cbn [filter find].
  destruct (Z.eqb (Item_id x) k) eqn:Hxk; cbn [negb find].
  - rewrite IH. apply Z.eqb_eq in Hxk. rewrite Hxk.
    destruct (Z.eqb j k); reflexivity.
  - rewrite IH. destruct (Z.eqb j (Item_id x)) eqn:Hjx; [|reflexivity].
    apply Z.eqb_eq in Hjx. subst j. rewrite Hxk. reflexivity.
Qed.

(** X8: when an owner requests delete_item for a stored id, the handler
    redirects to home; afterwards Item.query.get of that id returns None and
    of every other id what it returned before, no row of placed_in has
    appeared and every row that names another item is still there, and
    users, billings and orders are as they were. *)
Theorem delete_item_removes_one_row
    (k : Z) (e e' : Env) (d : Database) (u : User) (it : Item) :
  is_owner e u ->
  find (fun i => Z.eqb k (Item_id i)) (items d) = Some it ->
  fst (run (delete_item k) e d) = Ok (Redirect "home") /\
  fst (run (Item_query_get [Pos (VInt k)]) e' (after (DeleteItem k) e d)) = Ok None /\
  (forall j, j <> k ->
     fst (run (Item_query_get [Pos (VInt j)]) e' (after (DeleteItem k) e d)) =
     fst (run (Item_query_get [Pos (VInt j)]) e' d)) /\
  incl (placed_in (after (DeleteItem k) e d)) (placed_in d) /\
  (forall p, In p (placed_in d) -> PlacedIn_item_id p <> k ->
             In p (placed_in (after (DeleteItem k) e d))) /\
  users (after (DeleteItem k) e d) = users d /\
  billings (after (DeleteItem k) e d) = billings d /\
  orders (after (DeleteItem k) e d) = orders d.
Proof.
  intros Howner Hfind. unfold after.
  rewrite (delete_item_run k e d u Howner), Hfind.
  split; [reflexivity|]. cbn [snd].
  split; [|split; [|split; [|split]]].
  - rewrite run_Item_query_get. cbn [fst items without_item].
    rewrite find_without, Z.eqb_refl. reflexivity.
  - intros j Hj. rewrite !run_Item_query_get. cbn [fst items without_item].
    rewrite find_without. apply Z.eqb_neq in Hj. rewrite Hj. reflexivity.
  - intros p Hp. cbn [placed_in without_item] in Hp. apply filter_In in Hp. tauto.
  - intros p Hp Hneq. cbn [placed_in without_item]. apply filter_In.
    split; [exact Hp|]. apply negb_true_iff, Z.eqb_neq. exact Hneq.
  - repeat split; reflexivity.
Qed.

Lemma delete_item_removes_one_row_witness :
  is_owner get_by_owner owner_2 /\
  is_post get_by_owner = false /\
  find (fun i => Z.eqb 1 (Item_id i)) (items cart) = Some item_A /\
  items (after (DeleteItem 1) get_by_owner cart) = [item_B] /\
  fst (run (Item_query_get [Pos (VInt 1)]) anonymous_get
         (after (DeleteItem 1) get_by_owner cart)) = Ok None.
Proof.
  assert (Ho : is_owner get_by_owner owner_2) by (split; reflexivity).
  split; [exact Ho|]. split; [reflexivity|]. split; [reflexivity|].
  split; [reflexivity|].
  exact (proj1 (proj2 (delete_item_removes_one_row 1 get_by_owner
                         anonymous_get cart owner_2 item_A Ho eq_refl))).
Defined.

Lemma filter_all_true {A} (f : A -> bool) (l : list A) :
  (forall x, In x l -> f x = true) -> filter f l = l.
Proof.
  induction l as [|x rest IH]; intros Hall; [reflexivity|].
  simpl. rewrite (Hall x (or_introl eq_refl)). f_equal.
  apply IH. intros y Hy. apply Hall. right. exact Hy.
Qed.

(** X9: owner_add_item followed by delete_item of the id it assigned gives
    back the database there was, provided the rows of placed_in name stored
    items: the new id is above every stored id, so the deletion takes the new
    row and nothing else. *)
Theorem add_then_delete_item
    (f : ItemFields) (e e2 : Env) (d : Database) (u u2 : User) :
  is_owner e u ->
  validate_on_submit e = true ->
  Item_filter_by_name (form_name e) d = [] ->
  is_owner e2 u2 ->
  line_items_name_items d ->
  after (DeleteItem (Item_id (new_item e u f d))) e2 (after (OwnerAddItem f) e d) = d.
Proof.
  intros Howner Hv Hfree Howner2 Hnamed. unfold after.
  rewrite (owner_add_item_run f e d u Howner Hv), Hfree. cbn [snd].
  rewrite (delete_item_run _ e2 _ u2 Howner2).
  cbn [items set_items new_item Item_id].
  rewrite find_snoc, fresh_item_id_unused. cbn [Item_id].
  rewrite Z.eqb_refl. cbn [snd].
  unfold without_item. cbn [users billings items orders placed_in set_items].
  rewrite filter_app. cbn [filter Item_id]. rewrite Z.eqb_refl. cbn [negb].
  rewrite app_nil_r.
  rewrite !filter_all_true.
  - destruct d; reflexivity.
  - intros p Hp. destruct (Hnamed p Hp) as [it [Hin Hid]].
    apply negb_true_iff, Z.eqb_neq. rewrite <- Hid.
    pose proof (next_key_fresh (map Item_id (items d)) (Item_id it)
                  (in_map Item_id _ _ Hin)). lia.
  - intros it Hin. apply negb_true_iff, Z.eqb_neq.
    pose proof (next_key_fresh (map Item_id (items d)) (Item_id it)
                  (in_map Item_id _ _ Hin)). lia.
Qed.

Lemma cart_names_items : line_items_name_items cart.
Proof.
  intros p [<- | []]. exists item_A. split; [left; reflexivity|reflexivity].
Defined.

Lemma add_then_delete_item_witness :
  is_owner (post_by_owner "C") owner_2 /\
  is_owner get_by_foreign_owner foreign_owner /\
  is_post get_by_foreign_owner = false /\
  Item_filter_by_name "C" cart = [] /\
  line_items_name_items cart /\
  List.length (items (after (OwnerAddItem fields_C) (post_by_owner "C") cart)) = 3%nat /\
  after (DeleteItem 3) get_by_foreign_owner
    (after (OwnerAddItem fields_C) (post_by_owner "C") cart) = cart.
Proof.
  assert (Ho : is_owner (post_by_owner "C") owner_2) by (split; reflexivity).
  assert (Ho2 : is_owner get_by_foreign_owner foreign_owner)
    by (split; reflexivity).
  split; [exact Ho|]. split; [exact Ho2|]. split; [reflexivity|].
  split; [reflexivity|]. split; [exact cart_names_items|].
  split; [reflexivity|].
  exact (add_then_delete_item fields_C (post_by_owner "C") get_by_foreign_owner
           cart owner_2 foreign_owner Ho eq_refl eq_refl Ho2 cart_names_items).
Defined.

(** ** What each request can leave behind *)

Lemma edit_item_after (k : Z) (f : ItemFields) (e : Env) (d : Database) :
  after (EditItem k f) e d = d \/
  after (EditItem k f) e d = set_items d (edit_rows k (form_name e) f (items d)).
Proof.
  unfold after.
  destruct (current_user e) as [u|] eqn:Hu.
  - destruct (String.eqb (User_type u) "Owner") eqn:Htype.
    + apply String.eqb_eq in Htype.
      rewrite (edit_item_run k f e d u (conj Hu Htype)).
      destruct (find _ (items d)); [|left; reflexivity].
      destruct (validate_on_submit e); [right|left]; reflexivity.
    + left. unfold run, edit_item. rewrite admin_route, Hu, Htype. reflexivity.
  - left. unfold run, edit_item. rewrite admin_route, Hu. reflexivity.
Qed.

Lemma delete_item_after (k : Z) (e : Env) (d : Database) :
  after (DeleteItem k) e d = d \/ after (DeleteItem k) e d = without_item k d.
Proof.
  unfold after.
  destruct (current_user e) as [u|] eqn:Hu.
  - destruct (String.eqb (User_type u) "Owner") eqn:Htype.
    + apply String.eqb_eq in Htype.
      rewrite (delete_item_run k e d u (conj Hu Htype)).
      destruct (find _ (items d)); [right|left]; reflexivity.
    + left. unfold run, delete_item. rewrite admin_route, Hu, Htype. reflexivity.
  - left. unfold run, delete_item. rewrite admin_route, Hu. reflexivity.
Qed.

Lemma edit_billing_body_run (v : Z) (f : BillingFormData) (e : Env) (d : Database) :
  run (edit_billing_body v f) e d =
  match Billing_filter_by_user_id v d with
  | [] => (Raise (AttributeError "NoneType" "card_number"), d)
  | b :: _ =>
      if validate_on_submit e then
        if negb (String.eqb (bf_card_number f) (Billing_card_number b))
           && existsb (fun c => String.eqb (Billing_card_number c) (bf_card_number f))
                      (billings d)
        then (Raise (IntegrityError "billing"), d)
        else (Ok (BuildError "edit_billing" "user_id"),
              set_billings d (rebill (Billing_card_number b) f (billings d)))
      else (Ok (BillingPage (Render "add-billing.html" no_context)), d)
  end.
Proof.
  unfold run, edit_billing_body, Billing_update, db_session_commit. crank.
  cbn [session].
  destruct (Billing_filter_by_user_id v d) as [|b rest]; cbn [hd_error]; crank;
    [reflexivity|].
  destruct (validate_on_submit e); crank; [|reflexivity].
  cbn [session].
  destruct (negb _ && existsb _ (billings d)); crank; reflexivity.
Qed.

Lemma edit_billing_run (v : Z) (f : BillingFormData) (e : Env) (d : Database) (u : User) :
  is_customer e u ->
  run (edit_billing v f) e d = run (edit_billing_body v f) e d.
Proof.
  intros Hcust. unfold run, edit_billing.
  rewrite (customer_route_customer _ e u _ Hcust). reflexivity.
Qed.

Lemma edit_billing_after (v : Z) (f : BillingFormData) (e : Env) (d : Database) :
  exists bs, after (EditBilling v f) e d = set_billings d bs.
Proof.
  assert (Hsame : d = set_billings d (billings d)) by (destruct d; reflexivity).
  unfold after.
  destruct (current_user e) as [u|] eqn:Hu.
  - destruct (String.eqb (User_type u) "Customer") eqn:Htype.
    + apply String.eqb_eq in Htype.
      rewrite (edit_billing_run v f e d u (conj Hu Htype)), edit_billing_body_run.
      destruct (Billing_filter_by_user_id v d) as [|b rest];
        [exists (billings d); exact Hsame|].
      destruct (validate_on_submit e); [|exists (billings d); exact Hsame].
      destruct (negb _ && existsb _ (billings d));
        [exists (billings d); exact Hsame|eexists; reflexivity].
    + exists (billings d). unfold run, edit_billing.
      rewrite customer_route, Hu, Htype. exact Hsame.
  - exists (billings d). unfold run, edit_billing. rewrite customer_route, Hu.
    exact Hsame.
Qed.

Lemma login_after (check : string -> string -> bool) (f : LoginFormData)
    (e : Env) (d : Database) :
  after (Login check f) e d = d.
Proof.
  unfold after, run, login, flash. crank.
  destruct (validate_on_submit e); crank; [|reflexivity].
  cbn [session].
  destruct (hd_error (User_filter_by_email_address (lf_email f) d)) as [u|]; crank;
    [|reflexivity].
  destruct (check (User_password u) (lf_password f)); crank; reflexivity.
Qed.

Lemma logout_after (e : Env) (d : Database) : after Logout e d = d.
Proof.
  unfold after, run, logout. crank.
  destruct (current_user e); crank; reflexivity.
Qed.

Lemma home_after (lower : string -> string) (e : Env) (d : Database) :
  after (Home lower) e d = d.
Proof.
  unfold after, run, home. crank. cbn [session].
  destruct (lowered lower (clothing_types (items d))); crank; reflexivity.
Qed.

(** Orders: as they were, or with the one fresh order of add-item. Line
    items: none that was not there. *)
Lemma after_orders_and_line_items (r : request) (e : Env) (d : Database) :
  (orders (after r e d) = orders d \/
   exists u, Order_filter_by_user_id (User_id u) d = [] /\
             orders (after r e d) = orders d ++ [fresh_order e u d]) /\
  (forall p, In p (placed_in (after r e d)) -> In p (placed_in d)).
Proof.
  destruct r as [op|f|k f|k|v f|check f| |lower].
  - destruct (serve_frame op e d) as [_ [Hp Ho]]. cbn [after].
    split; [exact Ho|]. rewrite Hp. auto.
  - destruct (owner_add_item_after f e d) as [-> | [u [_ ->]]]; auto.
  - destruct (edit_item_after k f e d) as [-> | ->]; auto.
  - destruct (delete_item_after k e d) as [-> | ->]; [auto|].
    split; [left; reflexivity|].
    intros p Hp. cbn [placed_in without_item] in Hp.
    apply filter_In in Hp. tauto.
  - destruct (edit_billing_after v f e d) as [bs ->]. auto.
  - rewrite login_after. auto.
  - rewrite logout_after. auto.
  - rewrite home_after. auto.
Qed.

(** ** Orders and line items over any sequence of requests *)

(** X10: no request of any kind stores a row of placed_in: after any
    sequence of requests, by whichever users, every line item in the database
    was there at the start.  (The only statement that adds one, line 631, is
    behind the TypeError of line 624.) *)
Theorem no_request_adds_a_line_item (reqs : list (request * Env)) (d : Database) :
  incl (placed_in (after_all reqs d)) (placed_in d).
Proof.
  unfold after_all. revert d.
  induction reqs as [|[r e] rest IH]; intros d; simpl.
  - apply incl_refl.
  - intros p Hp. apply IH in Hp.
    apply (proj2 (after_orders_and_line_items r e d)). exact Hp.
Qed.

(** X11: no request removes or changes an order: after any sequence of
    requests the orders are those of the start, in place, followed by the
    orders created meanwhile, each still with the total_price 0 and the
    shipping provider 1 it was created with. *)
Theorem orders_are_only_appended (reqs : list (request * Env)) (d : Database) :
  exists added,
    orders (after_all reqs d) = orders d ++ added /\
    Forall (fun o => Order_total_price o = Some 0%float /\
                     Order_shipping_provider_id o = Some 1) added.
Proof.
  unfold after_all. revert d.
  induction reqs as [|[r e] rest IH]; intros d; simpl.
  - exists []. rewrite app_nil_r. split; [reflexivity|constructor].
  - destruct (IH (after r e d)) as [added [Heq Hall]].
    destruct (after_orders_and_line_items r e d) as [[Hsame | [u [_ Hnew]]] _].
    + exists added. rewrite Heq, Hsame. split; [reflexivity|exact Hall].
    + exists (fresh_order e u d :: added). rewrite Heq, Hnew, <- app_assoc.
      split; [reflexivity|]. constructor; [split; reflexivity|exact Hall].
Qed.

Lemma after_keeps_order_nums_unique (r : request) (e : Env) (d : Database) :
  NoDup (map Order_order_num (orders d)) ->
  NoDup (map Order_order_num (orders (after r e d))).
Proof.
  intros Hnd.
  destruct (after_orders_and_line_items r e d) as [[-> | [u [_ ->]]] _];
    [exact Hnd|].
  rewrite map_app. cbn [map fresh_order Order_order_num].
  apply NoDup_snoc; [exact Hnd|].
  intros Hin. apply next_key_fresh in Hin. lia.
Qed.

Lemma after_keeps_one_order (r : request) (e : Env) (d : Database) :
  one_order_each d -> one_order_each (after r e d).
Proof.
  intros Hone uid.
  destruct (after_orders_and_line_items r e d) as [[Hsame | [u [Hnone Hnew]]] _];
    unfold Order_filter_by_user_id in *.
  - rewrite Hsame. apply Hone.
  - rewrite Hnew, filter_app, length_app.
    cbn [filter fresh_order Order_user_id opt_Z_eqb].
    destruct (Z.eqb (User_id u) uid) eqn:Huid.
    + apply Z.eqb_eq in Huid. subst uid. rewrite Hnone. simpl. lia.
    + specialize (Hone uid). unfold Order_filter_by_user_id in Hone. simpl. lia.
Qed.

(** X12: over any sequence of requests of any kind (the owner's, billing,
    login, logout and home included) order numbers stay unique and no user id
    gets a second order, if that was so at the start. *)
Theorem order_keys_stay_unique (reqs : list (request * Env)) (d : Database) :
  NoDup (map Order_order_num (orders d)) ->
  one_order_each d ->
  NoDup (map Order_order_num (orders (after_all reqs d))) /\
  one_order_each (after_all reqs d).
Proof.
  unfold after_all. revert d.
  induction reqs as [|[r e] rest IH]; intros d Hnd Hone; simpl.
  - split; assumption.
  - apply IH; [apply after_keeps_order_nums_unique|apply after_keeps_one_order];
      assumption.
Qed.

Lemma order_keys_stay_unique_witness :
  NoDup (map Order_order_num (orders cart)) /\
  one_order_each cart /\
  map Order_order_num
    (orders (after_all [(CustomerRequest (AddItem 2), post_by_8);
                        (DeleteItem 1, post_by_owner "");
                        (CustomerRequest (AddItem 2), post_by_7 module_globals)] cart))
    = [1; 2] /\
  one_order_each
    (after_all [(CustomerRequest (AddItem 2), post_by_8);
                (DeleteItem 1, post_by_owner "");
                (CustomerRequest (AddItem 2), post_by_7 module_globals)] cart).
Proof.
  assert (Hnd : NoDup (map Order_order_num (orders cart))).
  { repeat constructor. intros []. }
  assert (Hone : one_order_each cart).
  { intros uid. unfold Order_filter_by_user_id. cbn -[Z.eqb].
    destruct (Z.eqb 7 uid); simpl; lia. }
  split; [exact Hnd|]. split; [exact Hone|]. split; [reflexivity|].
  exact (proj2 (order_keys_stay_unique _ cart Hnd Hone)).
Defined.

(** ** Prices and stored totals *)

Lemma filter_edit_rows (j k : Z) (name : string) (f : ItemFields) (its : list Item) :
  filter (fun i => Z.eqb (Item_id i) j) (edit_rows k name f its) =
  edit_rows k name f (filter (fun i => Z.eqb (Item_id i) j) its).
Proof.
  induction its as [|x rest IH]; [reflexivity|].
  cbn [edit_rows map filter]. fold (edit_rows k name f rest).
  destruct (Z.eqb (Item_id x) k) eqn:Hk; rewrite ?Item_assign_id;
    (destruct (Z.eqb (Item_id x) j);
     [cbn [edit_rows map]; rewrite Hk; f_equal; exact IH | exact IH]).
Qed.

Lemma find_exists {A} (f : A -> bool) (l : list A) (x : A) :
  In x l -> f x = true -> exists y, find f l = Some y.
Proof.
  induction l as [|y rest IH]; intros Hin Hx; [destruct Hin|].
  simpl. destruct (f y) eqn:Hy; [eauto|].
  destruct Hin as [-> | Hin]; [congruence|apply IH; assumption].
Qed.

(** X13: edit_item stores a new price without touching any order.  If an
    order holds exactly the edited item and its stored total was the sum over
    its line items, then after an owner's valid edit to a price that sums
    differently the order is still stored with the old total, while the sum
    over its line items is the new price: the totals are no longer
    consistent. *)
Theorem edit_item_leaves_total_stale
    (k : Z) (f : ItemFields) (e : Env) (d : Database) (u : User) (it : Item) (o : Order) :
  is_owner e u ->
  validate_on_submit e = true ->
  filter (fun i => Z.eqb (Item_id i) k) (items d) = [it] ->
  In o (orders d) ->
  line_items d (Order_order_num o) = [mkPlacedIn k (Order_order_num o)] ->
  Order_total_price o = Some (sum_prices [Item_price it]) ->
  sum_prices [if_price f] <> sum_prices [Item_price it] ->
  In o (orders (after (EditItem k f) e d)) /\
  line_item_prices (after (EditItem k f) e d) (Order_order_num o) = [if_price f] /\
  ~ total_consistent (after (EditItem k f) e d).
Proof.
  intros Howner Hv Hrow Ho Hline Htotal Hdiff.
  assert (Hit : In it (items d) /\ Z.eqb (Item_id it) k = true).
  { apply (proj1 (filter_In (fun i => Z.eqb (Item_id i) k) it (items d))).
    rewrite Hrow. left. reflexivity. }
  destruct Hit as [Hin Hid].
  destruct (find_exists (fun i => Z.eqb k (Item_id i)) (items d) it Hin) as [y Hfind].
  { rewrite Z.eqb_sym. exact Hid. }
  assert (Hafter : after (EditItem k f) e d
                   = set_items d (edit_rows k (form_name e) f (items d))).
  { unfold after. rewrite (edit_item_run k f e d u Howner), Hfind, Hv. reflexivity. }
  rewrite Hafter.
  assert (Hprices : line_item_prices
                      (set_items d (edit_rows k (form_name e) f (items d)))
                      (Order_order_num o) = [if_price f]).
  { unfold line_item_prices.
    change (line_items (set_items d (edit_rows k (form_name e) f (items d)))
              (Order_order_num o)) with (line_items d (Order_order_num o)).
    rewrite Hline. cbn [flat_map PlacedIn_item_id items set_items].
    rewrite filter_edit_rows, Hrow. cbn [edit_rows map]. rewrite Hid.
    reflexivity. }
  split; [exact Ho|]. split; [exact Hprices|].
  intros Hcons. specialize (Hcons o Ho). rewrite Hprices, Htotal in Hcons.
  injection Hcons as Hcons. apply Hdiff. symmetry. exact Hcons.
Qed.

Lemma edit_item_leaves_total_stale_witness :
  total_consistent cart /\
  Order_total_price (mkOrder 1 (Some the_date) (Some 19.99%float) (Some 7) (Some 1))
    = Some 19.99%float /\
  line_item_prices (after (EditItem 1 fields_A') (post_by_owner "A") cart) 1
    = [25%float] /\
  ~ total_consistent (after (EditItem 1 fields_A') (post_by_owner "A") cart).
Proof.
  assert (Ho : is_owner (post_by_owner "A") owner_2) by (split; reflexivity).
  assert (Hdiff : sum_prices [if_price fields_A'] <> sum_prices [Item_price item_A]).
  { vm_compute. intros H. discriminate H. }
  destruct (edit_item_leaves_total_stale 1 fields_A' (post_by_owner "A") cart owner_2
              item_A (mkOrder 1 (Some the_date) (Some 19.99%float) (Some 7) (Some 1))
              Ho eq_refl eq_refl (or_introl eq_refl) eq_refl eq_refl Hdiff)
    as [_ [Hprices Hstale]].
  split; [exact cart_consistent|]. split; [reflexivity|].
  split; [exact Hprices|exact Hstale].
Defined.

(** ** [sign_up] and [login] *)

Lemma sign_up_run (e : Env) (d : Database) :
  run sign_up e d =
  if validate_on_submit e then
    match User_filter_by_email_address (su_email (signup_data e)) d with
    | _ :: _ => (Ok (Redirect "login"), d)
    | [] =>
        if card_taken e d then (Raise (IntegrityError "billing"), with_user e d)
        else (Ok (Redirect "home"),
              set_billings (with_user e d)
                (billings d ++ [mkBilling (su_card_number (signup_data e))
                                          (su_expiry_date (signup_data e))
                                          (su_cvv (signup_data e))
                                          (Some (User_id (signed_up e d)))]))
    end
  else (Ok (Render "signup.html" no_context), d).
Proof.
  unfold run, sign_up, db_session_add_User, db_session_add_Billing,
    db_session_commit, flash, card_taken.
  crank.
  destruct (validate_on_submit e); crank; [|reflexivity].
  cbn [session].
  destruct (User_filter_by_email_address (su_email (signup_data e)) d);
    cbn [hd_error is_some]; crank; [|reflexivity].
  cbn [session billings].
  destruct (existsb _ (billings d)); crank; reflexivity.
Qed.

(** X14: sign_up commits the user before it adds the billing row.  When the
    submitted card number is already some row's key, the handler ends in
    IntegrityError with the new user stored and no billing row added: the
    account exists without billing. *)
Theorem sign_up_with_used_card (e : Env) (d : Database) :
  validate_on_submit e = true ->
  User_filter_by_email_address (su_email (signup_data e)) d = [] ->
  card_taken e d = true ->
  fst (serve SignUp e d) = Raise (IntegrityError "billing") /\
  users (snd (serve SignUp e d)) = users d ++ [signed_up e d] /\
  billings (snd (serve SignUp e d)) = billings d.
Proof.
  intros Hv Hfree Hcard. unfold serve, handler.
  rewrite sign_up_run, Hv, Hfree, Hcard. repeat split; reflexivity.
Qed.

Lemma sign_up_with_used_card_witness :
  card_taken (post_signup signup_D) shop_with_billing = true /\
  fst (serve SignUp (post_signup signup_D) shop_with_billing)
    = Raise (IntegrityError "billing") /\
  map User_id (users (snd (serve SignUp (post_signup signup_D) shop_with_billing)))
    = [7; 8] /\
  billings (snd (serve SignUp (post_signup signup_D) shop_with_billing))
    = [mkBilling "4111" None None (Some 7)].
Proof.
  destruct (sign_up_with_used_card (post_signup signup_D) shop_with_billing
              eq_refl eq_refl eq_refl) as [Hr [Hu Hb]].
  split; [reflexivity|]. split; [exact Hr|]. split; [rewrite Hu; reflexivity|exact Hb].
Defined.

Lemma login_run (check : string -> string -> bool) (f : LoginFormData)
    (e : Env) (d : Database) :
  fst (run (login check f) e d) =
  if validate_on_submit e then
    match User_filter_by_email_address (lf_email f) d with
    | u :: _ =>
        if check (User_password u) (lf_password f)
        then Ok (Redirect "home", Some u) else Ok (Redirect "login", None)
    | [] => Ok (Redirect "login", None)
    end
  else Ok (Render "login.html" no_context, None).
Proof.
  unfold run, login, flash. crank.
  destruct (validate_on_submit e); crank; [|reflexivity].
  cbn [session].
  destruct (User_filter_by_email_address (lf_email f) d) as [|u rest];
    cbn [hd_error]; crank; [reflexivity|].
  destruct (check (User_password u) (lf_password f)); crank; reflexivity.
Qed.

(** X15: login hands a user to login_user only if that user is stored under
    the submitted email address and check_password_hash accepts the submitted
    password against that user's stored hash; the response is then the
    redirect to home. *)
Theorem login_needs_matching_hash
    (check : string -> string -> bool) (f : LoginFormData) (e : Env) (d : Database)
    (r : response) (u : User) :
  fst (run (login check f) e d) = Ok (r, Some u) ->
  In u (users d) /\
  User_email_address u = lf_email f /\
  check (User_password u) (lf_password f) = true /\
  r = Redirect "home".
Proof.
  rewrite login_run.
  destruct (validate_on_submit e); [|discriminate].
  destruct (User_filter_by_email_address (lf_email f) d) as [|u' rest] eqn:Hq;
    [discriminate|].
  destruct (check (User_password u') (lf_password f)) eqn:Hcheck; [|discriminate].
  intros H. injection H as <- <-.
  assert (Hin : In u' (User_filter_by_email_address (lf_email f) d))
    by (rewrite Hq; left; reflexivity).
  apply filter_In in Hin. destruct Hin as [Hin Hmail].
  apply String.eqb_eq in Hmail. auto.
Qed.

Lemma login_needs_matching_hash_witness :
  fst (run (login toy_check (mkLoginFormData "d@example.org" "secret")) post_login
         two_users) = Ok (Redirect "home", Some user_D) /\
  In user_D (users two_users) /\
  toy_check (User_password user_D) "secret" = true.
Proof.
  split; [reflexivity|].
  destruct (login_needs_matching_hash toy_check
              (mkLoginFormData "d@example.org" "secret") post_login two_users
              (Redirect "home") user_D eq_refl) as [Hin [_ [Hcheck _]]].
  split; [exact Hin|exact Hcheck].
Defined.

(** X16: after a sign-up that succeeds, a login with the same email address
    and a password that check_password_hash accepts against the stored hash
    logs in the user that was just created. *)
Theorem sign_up_then_login
    (check : string -> string -> bool) (f : LoginFormData) (e e' : Env) (d : Database) :
  validate_on_submit e = true ->
  User_filter_by_email_address (su_email (signup_data e)) d = [] ->
  card_taken e d = false ->
  validate_on_submit e' = true ->
  lf_email f = su_email (signup_data e) ->
  check (su_password_hash (signup_data e)) (lf_password f) = true ->
  fst (serve SignUp e d) = Ok (Redirect "home") /\
  fst (run (login check f) e' (snd (serve SignUp e d)))
    = Ok (Redirect "home", Some (signed_up e d)).
Proof.
  intros Hv Hfree Hcard Hv' Hmail Hcheck. unfold serve, handler.
  rewrite sign_up_run, Hv, Hfree, Hcard. split; [reflexivity|].
  rewrite login_run, Hv'. cbn [snd].
  unfold User_filter_by_email_address in *.
  cbn [users set_billings with_user]. rewrite filter_app, Hmail, Hfree.
  cbn [app filter signed_up User_email_address]. rewrite String.eqb_refl.
  change (User_password (signed_up e d)) with (su_password_hash (signup_data e)).
  rewrite Hcheck. reflexivity.
Qed.

Lemma sign_up_then_login_witness :
  User_filter_by_email_address "d@example.org" shop = [] /\
  fst (run (login toy_check (mkLoginFormData "d@example.org" "secret")) post_login
         (snd (serve SignUp (post_signup signup_D) shop)))
    = Ok (Redirect "home", Some user_D).
Proof.
  split; [reflexivity|].
  exact (proj2 (sign_up_then_login toy_check (mkLoginFormData "d@example.org" "secret")
                  (post_signup signup_D) post_login shop
                  eq_refl eq_refl eq_refl eq_refl eq_refl eq_refl)).
Defined.

Lemma after_users (r : request) (e : Env) (d : Database) :
  users (after r e d) = users d \/
  (User_filter_by_email_address (su_email (signup_data e)) d = [] /\
   users (after r e d) = users d ++ [signed_up e d]).
Proof.
  destruct r as [op|f|k f|k|v f|check f| |lower].
  - cbn [after]. destruct op as [|item_id|item_id|].
    + unfold serve, handler. rewrite sign_up_run.
      destruct (validate_on_submit e); [|left; reflexivity].
      destruct (User_filter_by_email_address _ d) eqn:Hq; [|left; reflexivity].
      right. split; [reflexivity|].
      destruct (card_taken e d); reflexivity.
    + destruct (serve_AddItem item_id e d); left; reflexivity.
    + destruct (serve_RemoveItem item_id e d) as [x ->]. left. reflexivity.
    + rewrite serve_ViewOrder. left. reflexivity.
  - destruct (owner_add_item_after f e d) as [-> | [u [_ ->]]]; left; reflexivity.
  - destruct (edit_item_after k f e d) as [-> | ->]; left; reflexivity.
  - destruct (delete_item_after k e d) as [-> | ->]; left; reflexivity.
  - destruct (edit_billing_after v f e d) as [bs ->]. left. reflexivity.
  - rewrite login_after. left. reflexivity.
  - rewrite logout_after. left. reflexivity.
  - rewrite home_after. left. reflexivity.
Qed.

Lemma email_not_taken (email : string) (d : Database) :
  User_filter_by_email_address email d = [] ->
  ~ In email (map User_email_address (users d)).
Proof.
  intros Hnil Hin. apply in_map_iff in Hin. destruct Hin as [u [Hmail Hin]].
  pose proof (filter_nil_all _ _ Hnil u Hin) as Hfalse. simpl in Hfalse.
  apply String.eqb_neq in Hfalse. contradiction.
Qed.

(** X17: over any sequence of requests of any kind, user ids stay unique and
    so do email addresses, if they were at the start: only sign_up stores a
    user, under an id above all stored ones and only when no stored user has
    the submitted address. *)
Theorem user_keys_stay_unique (reqs : list (request * Env)) (d : Database) :
  NoDup (map User_id (users d)) ->
  NoDup (map User_email_address (users d)) ->
  NoDup (map User_id (users (after_all reqs d))) /\
  NoDup (map User_email_address (users (after_all reqs d))).
Proof.
  unfold after_all. revert d.
  induction reqs as [|[r e] rest IH]; intros d Hids Hmails; simpl.
  - split; assumption.
  - destruct (after_users r e d) as [Hsame | [Hfree Hnew]]; apply IH.
    + rewrite Hsame. exact Hids.
    + rewrite Hsame. exact Hmails.
    + rewrite Hnew, map_app. cbn [map signed_up User_id].
      apply NoDup_snoc; [exact Hids|].
      intros Hin. apply next_key_fresh in Hin. lia.
    + rewrite Hnew, map_app. cbn [map signed_up User_email_address].
      apply NoDup_snoc; [exact Hmails|apply email_not_taken; exact Hfree].
Qed.

Lemma user_keys_stay_unique_witness :
  NoDup (map User_id (users shop)) /\
  NoDup (map User_email_address (users shop)) /\
  map User_email_address
    (users (after_all [(CustomerRequest SignUp, post_signup signup_D);
                       (CustomerRequest SignUp, post_signup signup_D)] shop))
    = ["c@example.org"; "d@example.org"] /\
  NoDup (map User_email_address
           (users (after_all [(CustomerRequest SignUp, post_signup signup_D);
                              (CustomerRequest SignUp, post_signup signup_D)] shop))).
Proof.
  assert (H1 : NoDup (map User_id (users shop))) by (repeat constructor; intros []).
  assert (H2 : NoDup (map User_email_address (users shop)))
    by (repeat constructor; intros []).
  split; [exact H1|]. split; [exact H2|]. split; [reflexivity|].
  exact (proj2 (user_keys_stay_unique _ shop H1 H2)).
Defined.

(** ** [edit_billing] *)

(** X18: edit_billing acts on the billing row of the user id in the URL and
    never compares that id with the logged-in customer.  When any customer
    posts a valid form for a user who has a billing row, and the submitted
    card number collides with no other row, the row takes the submitted
    values (keeping its user_id) and is committed; the handler then ends in
    BuildError instead of a redirect, because url_for is given no user_id. *)
Theorem edit_billing_of_any_user
    (v : Z) (f : BillingFormData) (e : Env) (d : Database) (u : User)
    (b : Billing) (rest : list Billing) :
  is_customer e u ->
  validate_on_submit e = true ->
  Billing_filter_by_user_id v d = b :: rest ->
  negb (String.eqb (bf_card_number f) (Billing_card_number b))
    && existsb (fun c => String.eqb (Billing_card_number c) (bf_card_number f))
               (billings d) = false ->
  run (edit_billing v f) e d =
    (Ok (BuildError "edit_billing" "user_id"),
     set_billings d (rebill (Billing_card_number b) f (billings d))).
Proof.
  intros Hcust Hv Hrow Hfree.
  rewrite (edit_billing_run v f e d u Hcust), edit_billing_body_run, Hrow, Hv, Hfree.
  reflexivity.
Qed.

Lemma edit_billing_of_any_user_witness :
  is_customer (post_by_7 module_globals) customer_7 /\
  User_id customer_7 <> 8 /\
  run (edit_billing 8 new_card) (post_by_7 module_globals) two_billings =
    (Ok (BuildError "edit_billing" "user_id"),
     mkDatabase [customer_7; other_customer]
       [mkBilling "4111" None None (Some 7);
        mkBilling "4333" (Some "12/30") (Some "123") (Some 8)]
       [item_A; item_B] [] []).
Proof.
  assert (Hc : is_customer (post_by_7 module_globals) customer_7)
    by (split; reflexivity).
  split; [exact Hc|]. split; [discriminate|].
  exact (edit_billing_of_any_user 8 new_card (post_by_7 module_globals) two_billings
           customer_7 (mkBilling "4222" None None (Some 8)) [] Hc eq_refl eq_refl
           eq_refl).
Defined.

(** X19: for a customer, edit_billing of a user id that has no billing row
    (as after a sign-up that failed on the card number) ends in the
    AttributeError of reading [billing_to_edit.card_number], for GET and POST
    alike, and writes nothing; a valid POST whose card number is the key of
    another row ends in IntegrityError and writes nothing. *)
Theorem edit_billing_failures
    (v : Z) (f : BillingFormData) (e : Env) (d : Database) (u : User) :
  is_customer e u ->
  (Billing_filter_by_user_id v d = [] ->
   run (edit_billing v f) e d = (Raise (AttributeError "NoneType" "card_number"), d)) /\
  (forall b rest,
     Billing_filter_by_user_id v d = b :: rest ->
     validate_on_submit e = true ->
     bf_card_number f <> Billing_card_number b ->
     In (bf_card_number f) (map Billing_card_number (billings d)) ->
     run (edit_billing v f) e d = (Raise (IntegrityError "billing"), d)).
Proof.
  intros Hcust.
  rewrite (edit_billing_run v f e d u Hcust), edit_billing_body_run.
  split.
  - intros ->. reflexivity.
  - intros b rest -> -> Hneq Hin.
    apply String.eqb_neq in Hneq. rewrite Hneq. cbn [negb andb].
    assert (Hex : existsb (fun c => String.eqb (Billing_card_number c) (bf_card_number f))
                          (billings d) = true).
    { apply existsb_exists. apply in_map_iff in Hin. destruct Hin as [c [Hc Hin]].
      exists c. split; [exact Hin|]. apply String.eqb_eq. exact Hc. }
    rewrite Hex. reflexivity.
Qed.

Lemma edit_billing_failures_witness :
  is_customer (post_by_7 module_globals) customer_7 /\
  Billing_filter_by_user_id 8
    (snd (serve SignUp (post_signup signup_D) shop_with_billing)) = [] /\
  run (edit_billing 8 new_card) (post_by_7 module_globals)
      (snd (serve SignUp (post_signup signup_D) shop_with_billing))
    = (Raise (AttributeError "NoneType" "card_number"),
       snd (serve SignUp (post_signup signup_D) shop_with_billing)) /\
  run (edit_billing 7 (mkBillingFormData "4222" None None)) (post_by_7 module_globals)
      two_billings
    = (Raise (IntegrityError "billing"), two_billings).
Proof.
  assert (Hc : is_customer (post_by_7 module_globals) customer_7)
    by (split; reflexivity).
  split; [exact Hc|]. split; [reflexivity|]. split.
  - exact (proj1 (edit_billing_failures 8 new_card (post_by_7 module_globals)
                    (snd (serve SignUp (post_signup signup_D) shop_with_billing))
                    customer_7 Hc) eq_refl).
  - refine (proj2 (edit_billing_failures 7 (mkBillingFormData "4222" None None)
                     (post_by_7 module_globals) two_billings customer_7 Hc)
              (mkBilling "4111" None None (Some 7)) [] eq_refl eq_refl _ _).
    + discriminate.
    + right. left. reflexivity.
Defined.

(** ** [home] *)

Lemma opt_string_eqb_eq (a b : option string) : opt_string_eqb a b = true <-> a = b.
Proof.
  destruct a as [x|], b as [y|]; simpl; split; intros H;
    try discriminate; try reflexivity.
  - apply String.eqb_eq in H. subst. reflexivity.
  - injection H as ->. apply String.eqb_refl.
Qed.

Lemma seen_iff (t : option string) (acc : list (option string)) :
  existsb (opt_string_eqb t) acc = true <-> In t acc.
Proof.
  rewrite existsb_exists. split.
  - intros [x [Hin Heq]]. apply opt_string_eqb_eq in Heq. subst. exact Hin.
  - intros Hin. exists t. split; [exact Hin|apply opt_string_eqb_eq; reflexivity].
Qed.

(** The loop of lines 306-309 from any state of [clothing_types]. *)
Lemma collect_types (its : list Item) (acc : list (option string)) :
  NoDup acc ->
  NoDup (fold_left
           (fun acc it =>
              if existsb (opt_string_eqb (Item_type it)) acc then acc
              else acc ++ [Item_type it]) its acc) /\
  forall t,
    In t (fold_left
            (fun acc it =>
               if existsb (opt_string_eqb (Item_type it)) acc then acc
               else acc ++ [Item_type it]) its acc) <->
    In t acc \/ exists it, In it its /\ Item_type it = t.
Proof.
  revert acc. induction its as [|x rest IH]; intros acc Hnd; simpl.
  - split; [exact Hnd|]. intros t. split; [auto|].
    intros [H | [it [[] _]]]. exact H.
  - destruct (existsb (opt_string_eqb (Item_type x)) acc) eqn:Hseen.
    + apply seen_iff in Hseen. destruct (IH acc Hnd) as [Hnd' Hin]. split; [exact Hnd'|].
      intros t. rewrite Hin. split.
      * intros [H | [it [Hit Ht]]]; [left; exact H|right; exists it; auto].
      * intros [H | [it [[<- | Hit] Ht]]];
          [left; exact H | left; subst t; exact Hseen | right; exists it; auto].
    + assert (Hnew : ~ In (Item_type x) acc).
      { intros Hin. apply seen_iff in Hin. congruence. }
      destruct (IH (acc ++ [Item_type x]) (NoDup_snoc _ _ Hnd Hnew)) as [Hnd' Hin].
      split; [exact Hnd'|].
      intros t. rewrite Hin, in_app_iff. simpl. split.
      * intros [[H | [<- | []]] | [it [Hit Ht]]];
          [left; exact H | right; exists x; auto | right; exists it; auto].
      * intros [H | [it [[<- | Hit] Ht]]];
          [left; left; exact H | left; right; left; exact Ht | right; exists it; auto].
Qed.

Lemma lowered_all_typed (lower : string -> string) (types : list (option string)) :
  ~ In None types -> exists ts, lowered lower types = Ok ts /\ map Some ts = types.
Proof.
  induction types as [|[t|] rest IH]; intros Hnone.
  - exists []. split; reflexivity.
  - destruct IH as [ts [Hts Hmap]]; [intros H; apply Hnone; right; exact H|].
    exists (t :: ts). simpl. rewrite Hts, Hmap. split; reflexivity.
  - exfalso. apply Hnone. left. reflexivity.
Qed.

Lemma lowered_untyped (lower : string -> string) (types : list (option string)) :
  In None types -> lowered lower types = Raise (TypeError "lower" "NoneType").
Proof.
  induction types as [|[t|] rest IH]; intros Hin; [destruct Hin| |reflexivity].
  destruct Hin as [Hin | Hin]; [discriminate|].
  simpl. rewrite (IH Hin). reflexivity.
Qed.

Lemma insert_by_perm (key : string -> string) (t : string) (l : list string) :
  Permutation (insert_by key t l) (t :: l).
Proof.
  induction l as [|u rest IH]; simpl; [apply Permutation_refl|].
  destruct (String.leb (key t) (key u)); [apply Permutation_refl|].
  apply perm_trans with (u :: t :: rest); [apply perm_skip; exact IH|apply perm_swap].
Qed.

Lemma sorted_by_perm (key : string -> string) (ts : list string) :
  Permutation (sorted_by key ts) ts.
Proof.
  induction ts as [|t rest IH]; simpl; [apply perm_nil|].
  apply perm_trans with (t :: sorted_by key rest);
    [apply insert_by_perm|apply perm_skip; exact IH].
Qed.

Lemma insert_by_sorted (key : string -> string) (t : string) (l : list string) :
  Sorted (key_le key) l -> Sorted (key_le key) (insert_by key t l).
Proof.
  induction l as [|u rest IH]; intros Hs; simpl.
  - repeat constructor.
  - destruct (String.leb (key t) (key u)) eqn:Htu.
    + constructor; [exact Hs|constructor; exact Htu].
    + assert (Hut : key_le key u t).
      { destruct (String.leb_total (key t) (key u)) as [H | H];
          [congruence|exact H]. }
      apply Sorted_inv in Hs. destruct Hs as [Hs Hhd].
      constructor; [apply IH; exact Hs|].
      destruct rest as [|v rest']; simpl; [constructor; exact Hut|].
      destruct (String.leb (key t) (key v)); constructor;
        [exact Hut|inversion Hhd; assumption].
Qed.

Lemma sorted_by_sorted (key : string -> string) (ts : list string) :
  Sorted (key_le key) (sorted_by key ts).
Proof.
  induction ts as [|t rest IH]; simpl; [constructor|].
  apply insert_by_sorted. exact IH.
Qed.

Lemma home_run (lower : string -> string) (e : Env) (d : Database) :
  run (home lower) e d =
  match lowered lower (clothing_types (items d)) with
  | Ok ts => (Ok (Render "index.html" (mkContext (items d) 0%float),
                  sorted_by lower ts), d)
  | Raise x => (Raise x, d)
  end.
Proof.
  unfold run, home. crank. cbn [session].
  destruct (lowered lower (clothing_types (items d))); crank; reflexivity.
Qed.

(** X20: when every stored item has a type, home renders index.html with
    all the items and a list of types in which every type of a stored item
    occurs exactly once and no other string occurs, in ascending order of the
    lower-cased type; nothing is written. *)
Theorem home_lists_each_type_once (lower : string -> string) (e : Env) (d : Database) :
  (forall it, In it (items d) -> Item_type it <> None) ->
  exists all_types,
    run (home lower) e d =
      (Ok (Render "index.html" (mkContext (items d) 0%float), all_types), d) /\
    NoDup all_types /\
    (forall t, In t all_types <-> exists it, In it (items d) /\ Item_type it = Some t) /\
    Sorted (key_le lower) all_types.
Proof.
  intros Htyped.
  destruct (collect_types (items d) [] (NoDup_nil _)) as [Hnd Hin].
  fold (clothing_types (items d)) in Hnd, Hin.
  assert (Hnone : ~ In None (clothing_types (items d))).
  { intros H. apply Hin in H. destruct H as [[] | [it [Hit Ht]]].
    exact (Htyped it Hit Ht). }
  destruct (lowered_all_typed lower _ Hnone) as [ts [Hts Hmap]].
  exists (sorted_by lower ts). rewrite home_run, Hts.
  split; [reflexivity|].
  assert (Hnd_ts : NoDup ts).
  { apply (NoDup_map_inv Some). rewrite Hmap. exact Hnd. }
  split; [|split].
  - apply (Permutation_NoDup (Permutation_sym (sorted_by_perm lower ts))). exact Hnd_ts.
  - intros t. split.
    + intros Ht. apply (Permutation_in _ (sorted_by_perm lower ts)) in Ht.
      apply (in_map Some) in Ht. rewrite Hmap in Ht. apply Hin in Ht.
      destruct Ht as [[] | Ht]. exact Ht.
    + intros Hex.
      apply (Permutation_in _ (Permutation_sym (sorted_by_perm lower ts))).
      assert (Ht : In (Some t) (map Some ts)) by (rewrite Hmap; apply Hin; right; exact Hex).
      apply in_map_iff in Ht. destruct Ht as [t' [Heq Ht']].
      injection Heq as ->. exact Ht'.
  - apply sorted_by_sorted.
Qed.

Lemma wardrobe_typed : forall it, In it (items wardrobe) -> Item_type it <> None.
Proof.
  intros it [<- | [<- | [<- | [<- | []]]]]; discriminate.
Defined.

Lemma home_lists_each_type_once_witness :
  fst (run (home lower_ascii) anonymous_get wardrobe)
    = Ok (Render "index.html" (mkContext (items wardrobe) 0%float),
          ["coat"; "Hat"; "shirt"]) /\
  exists all_types,
    run (home lower_ascii) anonymous_get wardrobe =
      (Ok (Render "index.html" (mkContext (items wardrobe) 0%float), all_types),
       wardrobe) /\
    NoDup all_types /\
    (forall t, In t all_types <->
               exists it, In it (items wardrobe) /\ Item_type it = Some t) /\
    Sorted (key_le lower_ascii) all_types.
Proof.
  split; [reflexivity|].
  exact (home_lists_each_type_once lower_ascii anonymous_get wardrobe wardrobe_typed).
Defined.

(** X21: when some stored item has no type (the column is nullable), home
    ends in the TypeError of [str.lower(None)] inside [sorted], for every
    visitor, and renders nothing. *)
Theorem home_fails_on_untyped_item
    (lower : string -> string) (e : Env) (d : Database) (it : Item) :
  In it (items d) ->
  Item_type it = None ->
  run (home lower) e d = (Raise (TypeError "lower" "NoneType"), d).
Proof.
  intros Hin Hnone.
  destruct (collect_types (items d) [] (NoDup_nil _)) as [_ Hmem].
  fold (clothing_types (items d)) in Hmem.
  rewrite home_run, (lowered_untyped lower).
  - reflexivity.
  - apply Hmem. right. exists it. split; assumption.
Qed.

Lemma home_fails_on_untyped_item_witness :
  In item_B (items shop) /\
  Item_type item_B = None /\
  run (home lower_ascii) anonymous_get shop
    = (Raise (TypeError "lower" "NoneType"), shop).
Proof.
  assert (Hin : In item_B (items shop)) by (right; left; reflexivity).
  split; [exact Hin|]. split; [reflexivity|].
  exact (home_fails_on_untyped_item lower_ascii anonymous_get shop item_B Hin eq_refl).
Defined.

(** ** Primary keys of items and billing rows *)

Lemma NoDup_map_filter {A B} (g : A -> B) (p : A -> bool) (l : list A) :
  NoDup (map g l) -> NoDup (map g (filter p l)).
Proof.
  induction l as [|x rest IH]; intros Hnd; [exact Hnd|].
  simpl in Hnd. inversion Hnd as [|y ys Hnotin Hrest]; subst.
  simpl. destruct (p x); [|apply IH; exact Hrest].
  simpl. constructor; [|apply IH; exact Hrest].
  intros Hin. apply Hnotin. apply in_map_iff in Hin. destruct Hin as [z [Hz Hin]].
  apply filter_In in Hin. rewrite <- Hz. apply in_map. tauto.
Qed.

Lemma after_items (r : request) (e : Env) (d : Database) :
  items (after r e d) = items d \/
  (exists u f, items (after r e d) = items d ++ [new_item e u f d]) \/
  (exists k f, items (after r e d) = edit_rows k (form_name e) f (items d)) \/
  (exists k, items (after r e d) = filter (fun i => negb (Z.eqb (Item_id i) k)) (items d)).
Proof.
  destruct r as [op|f|k f|k|v f|check f| |lower].
  - left. apply serve_frame.
  - destruct (owner_add_item_after f e d) as [-> | [u [_ ->]]];
      [left; reflexivity|right; left; exists u, f; reflexivity].
  - destruct (edit_item_after k f e d) as [-> | ->];
      [left; reflexivity|right; right; left; exists k, f; reflexivity].
  - destruct (delete_item_after k e d) as [-> | ->];
      [left; reflexivity|right; right; right; exists k; reflexivity].
  - destruct (edit_billing_after v f e d) as [bs ->]. left. reflexivity.
  - rewrite login_after. left. reflexivity.
  - rewrite logout_after. left. reflexivity.
  - rewrite home_after. left. reflexivity.
Qed.

(** X22: over any sequence of requests of any kind item ids stay unique, if
    they were at the start: a new item gets an id above all stored ones, an
    edit keeps every id, a deletion only removes rows. *)
Theorem item_ids_stay_unique (reqs : list (request * Env)) (d : Database) :
  NoDup (map Item_id (items d)) ->
  NoDup (map Item_id (items (after_all reqs d))).
Proof.
  unfold after_all. revert d.
  induction reqs as [|[r e] rest IH]; intros d Hnd; simpl; [exact Hnd|].
  apply IH.
  destruct (after_items r e d) as [-> | [[u [f ->]] | [[k [f ->]] | [k ->]]]].
  - exact Hnd.
  - rewrite map_app. cbn [map new_item Item_id].
    apply NoDup_snoc; [exact Hnd|].
    intros Hin. apply next_key_fresh in Hin. lia.
  - unfold edit_rows. rewrite map_map.
    rewrite (map_ext _ Item_id); [exact Hnd|].
    intros x. destruct (Z.eqb (Item_id x) k); reflexivity.
  - apply NoDup_map_filter. exact Hnd.
Qed.

Lemma item_ids_stay_unique_witness :
  NoDup (map Item_id (items cart)) /\
  map Item_id
    (items (after_all [(OwnerAddItem fields_C, post_by_owner "C");
                       (DeleteItem 1, post_by_owner "");
                       (OwnerAddItem fields_C, post_by_owner "D");
                       (EditItem 2 fields_A', post_by_foreign_owner "C")] cart))
    = [2; 3; 4] /\
  NoDup (map Item_id
           (items (after_all [(OwnerAddItem fields_C, post_by_owner "C");
                              (DeleteItem 1, post_by_owner "");
                              (OwnerAddItem fields_C, post_by_owner "D");
                              (EditItem 2 fields_A', post_by_foreign_owner "C")] cart))).
Proof.
  assert (Hnd : NoDup (map Item_id (items cart))).
  { repeat constructor; simpl; intros H;
      repeat (destruct H as [H|H]; [discriminate H|]); exact H. }
  split; [exact Hnd|]. split; [reflexivity|].
  exact (item_ids_stay_unique _ cart Hnd).
Defined.

Lemma rebill_cards (old : string) (f : BillingFormData) (bs : list Billing) (c : string) :
  In c (map Billing_card_number (rebill old f bs)) ->
  In c (map Billing_card_number bs) \/ c = bf_card_number f.
Proof.
  induction bs as [|x rest IH]; simpl; [tauto|].
  destruct (String.eqb (Billing_card_number x) old); simpl; intros [H | H]; auto;
    destruct (IH H); auto.
Qed.

Lemma rebill_absent (old : string) (f : BillingFormData) (bs : list Billing) :
  ~ In old (map Billing_card_number bs) -> rebill old f bs = bs.
Proof.
  induction bs as [|x rest IH]; intros Hnotin; [reflexivity|].
  simpl. destruct (String.eqb (Billing_card_number x) old) eqn:Hx.
  - exfalso. apply Hnotin. left. apply String.eqb_eq. exact Hx.
  - f_equal. apply IH. intros H. apply Hnotin. right. exact H.
Qed.

Lemma rebill_keeps_cards_unique (old : string) (f : BillingFormData) (bs : list Billing) :
  NoDup (map Billing_card_number bs) ->
  bf_card_number f = old \/ ~ In (bf_card_number f) (map Billing_card_number bs) ->
  NoDup (map Billing_card_number (rebill old f bs)).
Proof.
  induction bs as [|x rest IH]; intros Hnd Hnew; [constructor|].
  simpl in Hnd. inversion Hnd as [|y ys Hnotin Hrest]; subst.
  simpl. destruct (String.eqb (Billing_card_number x) old) eqn:Hx.
  - apply String.eqb_eq in Hx. subst old.
    rewrite (rebill_absent _ f rest Hnotin). simpl.
    constructor; [|exact Hrest].
    destruct Hnew as [-> | Hnew]; [exact Hnotin|].
    intros H. apply Hnew. right. exact H.
  - apply String.eqb_neq in Hx. simpl. constructor.
    + intros Hin. apply rebill_cards in Hin. destruct Hin as [Hin | Heq];
        [contradiction|].
      destruct Hnew as [Hnew | Hnew].
      * apply Hx. rewrite Heq. exact Hnew.
      * apply Hnew. left. exact Heq.
    + apply IH; [exact Hrest|].
      destruct Hnew as [Hnew | Hnew]; [left; exact Hnew|].
      right. intros H. apply Hnew. right. exact H.
Qed.

Lemma existsb_card_false (card : string) (bs : list Billing) :
  existsb (fun c => String.eqb (Billing_card_number c) card) bs = false ->
  ~ In card (map Billing_card_number bs).
Proof.
  intros Hex Hin. apply in_map_iff in Hin. destruct Hin as [c [Hc Hin]].
  assert (Htrue : existsb (fun c => String.eqb (Billing_card_number c) card) bs = true).
  { apply existsb_exists. exists c. split; [exact Hin|apply String.eqb_eq; exact Hc]. }
  congruence.
Qed.

Lemma after_keeps_cards_unique (r : request) (e : Env) (d : Database) :
  NoDup (map Billing_card_number (billings d)) ->
  NoDup (map Billing_card_number (billings (after r e d))).
Proof.
  intros Hnd.
  destruct r as [op|f|k f|k|v f|check f| |lower].
  - cbn [after]. destruct op as [|item_id|item_id|].
    + unfold serve, handler. rewrite sign_up_run.
      destruct (validate_on_submit e); [|exact Hnd].
      destruct (User_filter_by_email_address _ d); [|exact Hnd].
      destruct (card_taken e d) eqn:Hcard; [exact Hnd|].
      cbn [snd billings set_billings]. rewrite map_app. cbn [map Billing_card_number].
      apply NoDup_snoc; [exact Hnd|apply existsb_card_false; exact Hcard].
    + destruct (serve_AddItem item_id e d); exact Hnd.
    + destruct (serve_RemoveItem item_id e d) as [x ->]. exact Hnd.
    + rewrite serve_ViewOrder. exact Hnd.
  - destruct (owner_add_item_after f e d) as [-> | [u [_ ->]]]; exact Hnd.
  - destruct (edit_item_after k f e d) as [-> | ->]; exact Hnd.
  - destruct (delete_item_after k e d) as [-> | ->]; exact Hnd.
  - unfold after.
    destruct (current_user e) as [u|] eqn:Hu.
    + destruct (String.eqb (User_type u) "Customer") eqn:Htype.
      * apply String.eqb_eq in Htype.
        rewrite (edit_billing_run v f e d u (conj Hu Htype)), edit_billing_body_run.
        destruct (Billing_filter_by_user_id v d) as [|b rest]; [exact Hnd|].
        destruct (validate_on_submit e); [|exact Hnd].
        destruct (String.eqb (bf_card_number f) (Billing_card_number b)) eqn:Hsame;
          cbn [negb andb].
        -- cbn [snd billings set_billings]. apply rebill_keeps_cards_unique;
             [exact Hnd|left; apply String.eqb_eq; exact Hsame].
        -- destruct (existsb _ (billings d)) eqn:Hex; [exact Hnd|].
           cbn [snd billings set_billings]. apply rebill_keeps_cards_unique;
             [exact Hnd|right; apply existsb_card_false; exact Hex].
      * unfold run, edit_billing. rewrite customer_route, Hu, Htype. exact Hnd.
    + unfold run, edit_billing. rewrite customer_route, Hu. exact Hnd.
  - rewrite login_after. exact Hnd.
  - rewrite logout_after. exact Hnd.
  - rewrite home_after. exact Hnd.
Qed.

(** X23: over any sequence of requests of any kind card numbers, the key of
    billing, stay unique, if they were at the start: sign_up and edit_billing
    store a card number only when no other row has it. *)
Theorem card_numbers_stay_unique (reqs : list (request * Env)) (d : Database) :
  NoDup (map Billing_card_number (billings d)) ->
  NoDup (map Billing_card_number (billings (after_all reqs d))).
Proof.
  unfold after_all. revert d.
  induction reqs as [|[r e] rest IH]; intros d Hnd; simpl; [exact Hnd|].
  apply IH. apply after_keeps_cards_unique. exact Hnd.
Qed.

Lemma card_numbers_stay_unique_witness :
  NoDup (map Billing_card_number (billings two_billings)) /\
  map Billing_card_number
    (billings (after_all [(EditBilling 8 new_card, post_by_7 module_globals);
                          (EditBilling 7 new_card, post_by_7 module_globals);
                          (CustomerRequest SignUp, post_signup signup_D)] two_billings))
    = ["4111"; "4333"] /\
  NoDup (map Billing_card_number
           (billings (after_all [(EditBilling 8 new_card, post_by_7 module_globals);
                                 (EditBilling 7 new_card, post_by_7 module_globals);
                                 (CustomerRequest SignUp, post_signup signup_D)]
                        two_billings))).
Proof.
  assert (Hnd : NoDup (map Billing_card_number (billings two_billings))).
  { repeat constructor; simpl; intros H;
      repeat (destruct H as [H|H]; [discriminate H|]); exact H. }
  split; [exact Hnd|]. split; [reflexivity|].
  exact (card_numbers_stay_unique _ two_billings Hnd).
Defined.
